(** * DMOD scheduler: jobs, job statuses and allocation paradigms

    A shallow embedding of [dmod/scheduler/job/job.py] and the properties of
    its status taxonomy, its paradigm selector and its job record.

    Conventions of the embedding:
    - a Python enum class is a module holding the inductive type [t] of its
      members, [members] (the iteration order of the class, which is the order
      of declaration), [name] and the properties of the class;
    - a Python [str] is a [string]: a sequence of code points below 256, with
      [strip] and [lower] as Python defines them on these code points;
    - a dynamically typed argument is a [pyobj];
    - the reading of [datetime.now()] taken by a call is an explicit argument
      [now] of the call;
    - a method that can raise returns a [result]. *)

From Stdlib Require Import ZArith List Bool String Ascii Lia.
From Stdlib.Strings Require Import Byte.
Import ListNotations.
Open Scope Z_scope.

(** ** Strings *)

Module PyStr.

(** [str.isspace] on one code point below 256: TAB..CR, FS..US, SPACE,
    NEL (0x85) and NBSP (0xA0). *)
Definition isspace (c : ascii) : bool :=
  let n := N_of_ascii c in
  ((9 <=? n) && (n <=? 13) || (28 <=? n) && (n <=? 32) || (n =? 133) || (n =? 160))%N.

Fixpoint lstrip (s : string) : string :=
  match s with
  | EmptyString => EmptyString
  | String c s' => if isspace c then lstrip s' else s
  end.

Fixpoint rstrip (s : string) : string :=
  match s with
  | EmptyString => EmptyString
  | String c s' =>
      match rstrip s' with
      | EmptyString => if isspace c then EmptyString else String c EmptyString
      | r => String c r
      end
  end.

(** [s.strip()]: blanks removed at both ends. *)
Definition strip (s : string) : string := rstrip (lstrip s).

(** [str.lower] on one code point below 256: A..Z and the accented capitals
    0xC0..0xDE (but the multiplication sign 0xD7) move up by 32. *)
Definition lower_char (c : ascii) : ascii :=
  let n := N_of_ascii c in
  if ((65 <=? n) && (n <=? 90) || (192 <=? n) && (n <=? 222) && negb (n =? 215))%N
  then ascii_of_N (n + 32) else c.

Fixpoint lower (s : string) : string :=
  match s with
  | EmptyString => EmptyString
  | String c s' => String (lower_char c) (lower s')
  end.

Definition len (s : string) : Z := Z.of_nat (String.length s).

End PyStr.

(** ** The allocation paradigms *)

Module JobAllocationParadigm.

Inductive t : Set := FILL_NODES | ROUND_ROBIN | SINGLE_NODE.

Definition value (p : t) : Z :=
  match p with FILL_NODES => 0 | ROUND_ROBIN => 1 | SINGLE_NODE => 2 end.

Definition name (p : t) : string :=
  match p with
  | FILL_NODES => "FILL_NODES"
  | ROUND_ROBIN => "ROUND_ROBIN"
  | SINGLE_NODE => "SINGLE_NODE"
  end.

Definition members : list t := [FILL_NODES; ROUND_ROBIN; SINGLE_NODE].

End JobAllocationParadigm.

(** ** The steps of a phase *)

Module JobExecStep.

Inductive t : Set :=
| DEFAULT | AWAITING_ALLOCATION | ALLOCATED | SCHEDULED
| RUNNING | STOPPED | COMPLETED | FAILED.

(** The value tuple of a member: [(uid, is_interrupted, is_error)]. *)
Definition value (s : t) : Z * bool * bool :=
  match s with
  | DEFAULT => (0, false, false)
  | AWAITING_ALLOCATION => (1, false, false)
  | ALLOCATED => (2, false, false)
  | SCHEDULED => (3, false, false)
  | RUNNING => (4, false, false)
  | STOPPED => (5, true, false)
  | COMPLETED => (6, false, false)
  | FAILED => (-1, true, true)
  end.

Definition uid (s : t) : Z := fst (fst (value s)).
Definition is_interrupted (s : t) : bool := snd (fst (value s)).
Definition is_error (s : t) : bool := snd (value s).

Definition members : list t :=
  [DEFAULT; AWAITING_ALLOCATION; ALLOCATED; SCHEDULED; RUNNING; STOPPED; COMPLETED; FAILED].

(** [==] on members: the class defines no [__eq__], so it is identity. *)
Definition eqb (a b : t) : bool :=
  match a, b with
  | DEFAULT, DEFAULT | AWAITING_ALLOCATION, AWAITING_ALLOCATION
  | ALLOCATED, ALLOCATED | SCHEDULED, SCHEDULED | RUNNING, RUNNING
  | STOPPED, STOPPED | COMPLETED, COMPLETED | FAILED, FAILED => true
  | _, _ => false
  end.

End JobExecStep.

(** ** The phases *)

Module JobExecPhase.

Inductive t : Set := INIT | MODEL_EXEC | OUTPUT_EXEC | CLOSED | UNKNOWN.

(** The value tuple of a member: [(uid, is_active, default_start)]. *)
Definition value (p : t) : Z * bool * JobExecStep.t :=
  match p with
  | INIT => (1, true, JobExecStep.DEFAULT)
  | MODEL_EXEC => (2, true, JobExecStep.AWAITING_ALLOCATION)
  | OUTPUT_EXEC => (3, true, JobExecStep.AWAITING_ALLOCATION)
  | CLOSED => (4, false, JobExecStep.COMPLETED)
  | UNKNOWN => (-1, false, JobExecStep.DEFAULT)
  end.

Definition uid (p : t) : Z := fst (fst (value p)).
Definition is_active (p : t) : bool := snd (fst (value p)).
Definition default_start_step (p : t) : JobExecStep.t := snd (value p).

Definition members : list t := [INIT; MODEL_EXEC; OUTPUT_EXEC; CLOSED; UNKNOWN].

(** [==] on members: identity, as for the steps. *)
Definition eqb (a b : t) : bool :=
  match a, b with
  | INIT, INIT | MODEL_EXEC, MODEL_EXEC | OUTPUT_EXEC, OUTPUT_EXEC
  | CLOSED, CLOSED | UNKNOWN, UNKNOWN => true
  | _, _ => false
  end.

End JobExecPhase.

(** ** The statuses *)

Module JobStatus.

Inductive t : Set :=
| CREATED
| MODEL_EXEC_AWAITING_ALLOCATION
| MODEL_EXEC_ALLOCATED
| MODEL_EXEC_SCHEDULED
| MODEL_EXEC_RUNNING
| MODEL_EXEC_STOPPED
| MODEL_EXEC_COMPLETED
| MODEL_EXEC_FAILED
| OUTPUT_EXEC_AWAITING_ALLOCATION
| OUTPUT_EXEC_ALLOCATED
| OUTPUT_EXEC_SCHEDULED
| OUTPUT_EXEC_RUNNING
| OUTPUT_EXEC_STOPPED
| OUTPUT_EXEC_COMPLETED
| OUTPUT_EXEC_FAILED
| CLOSED
| CLOSED_FAILURE
| UNKNOWN.

(** What [__init__] stores in a member. *)
Record fields : Set := mkFields {
  _uid : Z;
  _phase : JobExecPhase.t;
  _step : JobExecStep.t;
  _release_allocations : bool
}.

(** [__init__(self, uid, phase, step, should_release_allocations=False)]:
    [None] stands for a value tuple that gives no fourth component. *)
Definition init (uid : Z) (phase : JobExecPhase.t) (step : JobExecStep.t)
    (should_release_allocations : option bool) : fields :=
  {| _uid := uid;
     _phase := phase;
     _step := step;
     _release_allocations :=
       match should_release_allocations with Some b => b | None => false end |}.

(** The members as the class body declares them. *)
Definition value (s : t) : fields :=
  match s with
  | CREATED =>
      init 0 JobExecPhase.INIT JobExecStep.DEFAULT None
  | MODEL_EXEC_AWAITING_ALLOCATION =>
      init 1 JobExecPhase.MODEL_EXEC JobExecStep.AWAITING_ALLOCATION None
  | MODEL_EXEC_ALLOCATED =>
      init 2 JobExecPhase.MODEL_EXEC JobExecStep.ALLOCATED None
  | MODEL_EXEC_SCHEDULED =>
      init 3 JobExecPhase.MODEL_EXEC JobExecStep.SCHEDULED None
  | MODEL_EXEC_RUNNING =>
      init 4 JobExecPhase.MODEL_EXEC JobExecStep.RUNNING None
  | MODEL_EXEC_STOPPED =>
      init 5 JobExecPhase.MODEL_EXEC JobExecStep.STOPPED (Some false)
  | MODEL_EXEC_COMPLETED =>
      init 6 JobExecPhase.MODEL_EXEC JobExecStep.COMPLETED (Some false)
  | MODEL_EXEC_FAILED =>
      init (-1) JobExecPhase.MODEL_EXEC JobExecStep.FAILED (Some true)
  | OUTPUT_EXEC_AWAITING_ALLOCATION =>
      init 13 JobExecPhase.OUTPUT_EXEC JobExecStep.AWAITING_ALLOCATION None
  | OUTPUT_EXEC_ALLOCATED =>
      init 12 JobExecPhase.OUTPUT_EXEC JobExecStep.ALLOCATED None
  | OUTPUT_EXEC_SCHEDULED =>
      init 11 JobExecPhase.OUTPUT_EXEC JobExecStep.SCHEDULED None
  | OUTPUT_EXEC_RUNNING =>
      init 7 JobExecPhase.OUTPUT_EXEC JobExecStep.RUNNING None
  | OUTPUT_EXEC_STOPPED =>
      init 8 JobExecPhase.OUTPUT_EXEC JobExecStep.STOPPED (Some false)
  | OUTPUT_EXEC_COMPLETED =>
      init 9 JobExecPhase.OUTPUT_EXEC JobExecStep.COMPLETED (Some true)
  | OUTPUT_EXEC_FAILED =>
      init (-2) JobExecPhase.OUTPUT_EXEC JobExecStep.FAILED (Some true)
  | CLOSED =>
      init 10 JobExecPhase.CLOSED JobExecStep.COMPLETED (Some true)
  | CLOSED_FAILURE =>
      init (-3) JobExecPhase.CLOSED JobExecStep.FAILED (Some true)
  | UNKNOWN =>
      init (-10) JobExecPhase.UNKNOWN JobExecStep.DEFAULT None
  end.

Definition name (s : t) : string :=
  match s with
  | CREATED => "CREATED"
  | MODEL_EXEC_AWAITING_ALLOCATION => "MODEL_EXEC_AWAITING_ALLOCATION"
  | MODEL_EXEC_ALLOCATED => "MODEL_EXEC_ALLOCATED"
  | MODEL_EXEC_SCHEDULED => "MODEL_EXEC_SCHEDULED"
  | MODEL_EXEC_RUNNING => "MODEL_EXEC_RUNNING"
  | MODEL_EXEC_STOPPED => "MODEL_EXEC_STOPPED"
  | MODEL_EXEC_COMPLETED => "MODEL_EXEC_COMPLETED"
  | MODEL_EXEC_FAILED => "MODEL_EXEC_FAILED"
  | OUTPUT_EXEC_AWAITING_ALLOCATION => "OUTPUT_EXEC_AWAITING_ALLOCATION"
  | OUTPUT_EXEC_ALLOCATED => "OUTPUT_EXEC_ALLOCATED"
  | OUTPUT_EXEC_SCHEDULED => "OUTPUT_EXEC_SCHEDULED"
  | OUTPUT_EXEC_RUNNING => "OUTPUT_EXEC_RUNNING"
  | OUTPUT_EXEC_STOPPED => "OUTPUT_EXEC_STOPPED"
  | OUTPUT_EXEC_COMPLETED => "OUTPUT_EXEC_COMPLETED"
  | OUTPUT_EXEC_FAILED => "OUTPUT_EXEC_FAILED"
  | CLOSED => "CLOSED"
  | CLOSED_FAILURE => "CLOSED_FAILURE"
  | UNKNOWN => "UNKNOWN"
  end.

(** Iteration over the class: the members in the order of declaration. *)
Definition members : list t :=
  [ CREATED;
    MODEL_EXEC_AWAITING_ALLOCATION; MODEL_EXEC_ALLOCATED; MODEL_EXEC_SCHEDULED;
    MODEL_EXEC_RUNNING; MODEL_EXEC_STOPPED; MODEL_EXEC_COMPLETED; MODEL_EXEC_FAILED;
    OUTPUT_EXEC_AWAITING_ALLOCATION; OUTPUT_EXEC_ALLOCATED; OUTPUT_EXEC_SCHEDULED;
    OUTPUT_EXEC_RUNNING; OUTPUT_EXEC_STOPPED; OUTPUT_EXEC_COMPLETED; OUTPUT_EXEC_FAILED;
    CLOSED; CLOSED_FAILURE;
    UNKNOWN ].

Definition uid (s : t) : Z := _uid (value s).
Definition job_exec_phase (s : t) : JobExecPhase.t := _phase (value s).
Definition job_exec_step (s : t) : JobExecStep.t := _step (value s).
Definition should_release_allocations (s : t) : bool := _release_allocations (value s).
Definition is_active (s : t) : bool := JobExecPhase.is_active (job_exec_phase s).
Definition is_error (s : t) : bool := JobExecStep.is_error (job_exec_step s).
Definition is_interrupted (s : t) : bool := JobExecStep.is_interrupted (job_exec_step s).

(** The [for value in JobStatus: if ...: actives.append(value)] loop. *)
Fixpoint collect_actives (todo : list t) (actives : list t) : list t :=
  match todo with
  | [] => actives
  | value :: rest =>
      collect_actives rest (if is_active value then actives ++ [value] else actives)
  end.

Definition get_active_statuses : list t := collect_actives members [].

(** The loop of [get_for_phase_and_step]: the first member whose phase and
    step are the given ones, [None] when the loop falls through. *)
Fixpoint first_for (todo : list t) (phase : JobExecPhase.t) (step : JobExecStep.t)
    : option t :=
  match todo with
  | [] => None
  | value :: rest =>
      if JobExecPhase.eqb (job_exec_phase value) phase
         && JobExecStep.eqb (job_exec_step value) step
      then Some value
      else first_for rest phase step
  end.

(** [get_for_phase_and_step]: the comparisons of enum members raise nothing,
    and whatever the [try] block could raise is swallowed by the bare
    [except], after which [UNKNOWN] is returned. *)
Definition get_for_phase_and_step (phase : JobExecPhase.t) (step : JobExecStep.t) : t :=
  match first_for members phase step with
  | Some value => value
  | None => UNKNOWN
  end.

End JobStatus.

(** ** Python values *)

(** A [float] as [is_integer] and [int] see it: [m * 2^e], an infinity or a
    NaN. *)
Inductive pyfloat : Set :=
| FFinite (m e : Z)
| FInf (negative : bool)
| FNaN.

(** [f.is_integer()]: false on the infinities and on NaN. *)
Definition float_is_integer (f : pyfloat) : bool :=
  match f with
  | FFinite m e => if 0 <=? e then true else m mod 2 ^ (- e) =? 0
  | FInf _ | FNaN => false
  end.

(** [int(f)] for a finite [f]: truncation towards zero. The callers below
    reach it only after [is_integer] answered true. *)
Definition float_to_int (f : pyfloat) : Z :=
  match f with
  | FFinite m e => if 0 <=? e then m * 2 ^ e else Z.quot m (2 ^ (- e))
  | FInf _ | FNaN => 0
  end.

(** The values a dynamically typed argument can hold. [PyBool] is apart from
    [PyInt] but [isinstance(b, int)] holds of it, with [True == 1] and
    [False == 0]; [PyObject] is an object of any class not listed. *)
Inductive pyobj : Set :=
| PyNone
| PyNotImplemented
| PyBool (b : bool)
| PyInt (n : Z)
| PyFloat (f : pyfloat)
| PyStr (s : string)
| PyBytes (b : list byte)
| PyJobStatus (s : JobStatus.t)
| PyObject (id : nat).

(** ** Selecting a paradigm by name *)

(** [JobAllocationParadigm.get_default_selection]: the body of the method is
    its docstring alone, it has no [return] statement, so a call evaluates to
    Python's [None], here the [None] of [option]. *)
Definition get_default_selection : option JobAllocationParadigm.t := None.

(** The [for enum_val in cls: if enum_val.name == trimmed_name: return enum_val]
    loop; [None] when it falls through. *)
Fixpoint first_paradigm_named (todo : list JobAllocationParadigm.t) (trimmed_name : string)
    : option JobAllocationParadigm.t :=
  match todo with
  | [] => None
  | enum_val :: rest =>
      if (JobAllocationParadigm.name enum_val =? trimmed_name)%string
      then Some enum_val
      else first_paradigm_named rest trimmed_name
  end.

(** [JobAllocationParadigm.get_from_name]. *)
Definition get_from_name (name : pyobj) : option JobAllocationParadigm.t :=
  match name with
  | PyStr s =>
      let trimmed_name := PyStr.strip s in
      match first_paradigm_named JobAllocationParadigm.members trimmed_name with
      | Some enum_val => Some enum_val
      | None => get_default_selection
      end
  | _ => get_default_selection
  end.

(** ** Statuses by name, equality and hash of a status *)

(** The loop of [get_for_name]. *)
Fixpoint first_status_named (todo : list JobStatus.t) (formatted_name : string)
    : option JobStatus.t :=
  match todo with
  | [] => None
  | value :: rest =>
      if (formatted_name =? PyStr.strip (PyStr.lower (JobStatus.name value)))%string
      then Some value
      else first_status_named rest formatted_name
  end.

(** [JobStatus.get_for_name]. *)
Definition get_for_name (name : pyobj) : JobStatus.t :=
  match name with
  | PyStr s =>
      if PyStr.len s =? 0 then JobStatus.UNKNOWN
      else
        let formatted_name := PyStr.strip (PyStr.lower s) in
        match first_status_named JobStatus.members formatted_name with
        | Some value => value
        | None => JobStatus.UNKNOWN
        end
  | _ => JobStatus.UNKNOWN
  end.

(** [JobStatus.__eq__]. The [str] branch is [self == self.get_for_name(other)],
    a second call of the method, which then takes its first branch. *)
Definition JobStatus_eq (self : JobStatus.t) (other : pyobj) : bool :=
  match other with
  | PyJobStatus o => JobStatus.uid self =? JobStatus.uid o
  | PyBool b => JobStatus.uid self =? (if b then 1 else 0)
  | PyInt n => JobStatus.uid self =? n
  | PyFloat f =>
      if float_is_integer f then JobStatus.uid self =? float_to_int f else false
  | PyStr _ => JobStatus.uid self =? JobStatus.uid (get_for_name other)
  | _ => false
  end.

(** The method [JobStatus.__hash__]: what the method returns, which is not
    yet what [hash(status)] evaluates to (see [JobStatus_builtin_hash]). *)
Definition JobStatus_hash (self : JobStatus.t) : Z := JobStatus.uid self.

(** [hash(n)] of an integer [n] in CPython (64-bit build): the sign of [n]
    times its absolute value modulo [2^61 - 1], before the value -1 is
    replaced. *)
Definition int_hash (n : Z) : Z := Z.sgn n * (Z.abs n mod (2 ^ 61 - 1)).

(** The builtin [hash(x)] of an object whose class defines [__hash__], from
    the integer [h] the method returns, as CPython (64-bit build) computes
    it: [h] itself when it fits a signed 64-bit word, the hash of the integer
    [h] otherwise; and -2 where that gives -1, a value the interpreter keeps
    for errors. *)
Definition hash_of_dunder (h : Z) : Z :=
  let h := if (- 2 ^ 63 <=? h) && (h <? 2 ^ 63) then h else int_hash h in
  if h =? -1 then -2 else h.

(** [hash(status)]: the builtin applied to a status, which calls
    [JobStatus.__hash__]. *)
Definition JobStatus_builtin_hash (self : JobStatus.t) : Z :=
  hash_of_dunder (JobStatus_hash self).

(** ** Identifiers *)

(** A [uuid.UUID]: the class keeps the 128-bit integer [int]. *)
Record UUID : Set := mkUUID { uuid_int : Z }.

Definition byte_of_Z (z : Z) : byte :=
  match Byte.of_N (Z.to_N (z mod 256)) with
  | Some b => b
  | None => x00
  end.

(** [n.to_bytes(length, 'big')]. *)
Definition to_bytes_big (length : nat) (n : Z) : list byte :=
  map (fun i => byte_of_Z (Z.shiftr n (8 * Z.of_nat (length - 1 - i)))) (seq 0 length).

(** The property [UUID.bytes]: the integer on 16 bytes, big end first. *)
Definition UUID_bytes (u : UUID) : list byte := to_bytes_big 16 (uuid_int u).

Fixpoint bytes_eqb (x y : list byte) : bool :=
  match x, y with
  | [], [] => true
  | a :: x', b :: y' => Byte.eqb a b && bytes_eqb x' y'
  | _, _ => false
  end.

(** [a == b] where each side is [None] or a [bytes], which is all the getter
    of [job_id] returns: [None == None] holds, two [bytes] are equal when
    they hold the same bytes, and [None] is not equal to a [bytes]. *)
Definition job_id_eq (a b : pyobj) : bool :=
  match a, b with
  | PyNone, PyNone => true
  | PyBytes x, PyBytes y => bytes_eqb x y
  | _, _ => false
  end.

(** ** Errors *)

(** [ValueError] is what [uuid.UUID] raises on a string it cannot read: the
    invalid-identifier error of the job record. *)
Inductive exn : Set := ValueError | AttributeError.

Inductive result (A : Type) : Type :=
| Ok (a : A)
| Raise (e : exn).

Arguments Ok {A} a.
Arguments Raise {A} e.

Definition bind {A B : Type} (r : result A) (k : A -> result B) : result B :=
  match r with
  | Ok a => k a
  | Raise e => Raise e
  end.

Notation "x <- r ;; k" := (bind r (fun x => k))
  (at level 61, r at next level, right associativity).

(** A time stamp, as [datetime.now()] gives it. *)
Definition datetime : Set := Z.

(** ** Jobs *)

Section Jobs.

(** What the module takes from elsewhere: the allocation grants, the key
    pairs and the parameter dictionaries, which a job only stores; the
    constructor [uuid.UUID(hex)] of the standard library, [None] when it
    raises [ValueError]; and the builtin [hash]. *)
Context {ResourceAllocation RsaKeyPair Parameters : Type}.
Variable UUID_of_str : string -> option UUID.
Variable hash : pyobj -> Z.

(** The attributes of a [JobImpl]. [_allocation_paradigm] holds what
    [get_from_name] returned, [job_uuid] is [None] or a [UUID]. *)
Record JobImpl : Type := mkJobImpl {
  _cpu_count : Z;
  _memory_size : Z;
  _parameters : Parameters;
  _allocation_paradigm : option JobAllocationParadigm.t;
  _allocation_priority : Z;
  job_uuid : option UUID;
  _rsa_key_pair : option RsaKeyPair;
  _status : JobStatus.t;
  _allocations : option (list ResourceAllocation);
  _last_updated : datetime
}.

(** Assignments to one attribute. *)
Definition with_allocation_priority (v : Z) (j : JobImpl) : JobImpl :=
  mkJobImpl (_cpu_count j) (_memory_size j) (_parameters j) (_allocation_paradigm j)
    v (job_uuid j) (_rsa_key_pair j) (_status j) (_allocations j) (_last_updated j).

Definition with_job_uuid (v : option UUID) (j : JobImpl) : JobImpl :=
  mkJobImpl (_cpu_count j) (_memory_size j) (_parameters j) (_allocation_paradigm j)
    (_allocation_priority j) v (_rsa_key_pair j) (_status j) (_allocations j)
    (_last_updated j).

Definition with_rsa_key_pair (v : option RsaKeyPair) (j : JobImpl) : JobImpl :=
  mkJobImpl (_cpu_count j) (_memory_size j) (_parameters j) (_allocation_paradigm j)
    (_allocation_priority j) (job_uuid j) v (_status j) (_allocations j)
    (_last_updated j).

Definition with_status (v : JobStatus.t) (j : JobImpl) : JobImpl :=
  mkJobImpl (_cpu_count j) (_memory_size j) (_parameters j) (_allocation_paradigm j)
    (_allocation_priority j) (job_uuid j) (_rsa_key_pair j) v (_allocations j)
    (_last_updated j).

Definition with_allocations (v : option (list ResourceAllocation)) (j : JobImpl) : JobImpl :=
  mkJobImpl (_cpu_count j) (_memory_size j) (_parameters j) (_allocation_paradigm j)
    (_allocation_priority j) (job_uuid j) (_rsa_key_pair j) (_status j) v
    (_last_updated j).

Definition with_last_updated (v : datetime) (j : JobImpl) : JobImpl :=
  mkJobImpl (_cpu_count j) (_memory_size j) (_parameters j) (_allocation_paradigm j)
    (_allocation_priority j) (job_uuid j) (_rsa_key_pair j) (_status j) (_allocations j)
    v.

(** [_reset_last_updated]: [self._last_updated = datetime.now()]. *)
Definition _reset_last_updated (now : datetime) (self : JobImpl) : JobImpl :=
  with_last_updated now self.

(** [JobImpl.__init__]; [alloc_priority] is [None] when the caller leaves it
    to its default, 0. *)
Definition JobImpl_init (now : datetime) (cpu_count memory_size : Z)
    (parameters : Parameters) (allocation_paradigm_str : pyobj)
    (alloc_priority : option Z) : JobImpl :=
  _reset_last_updated now
    {| _cpu_count := cpu_count;
       _memory_size := memory_size;
       _parameters := parameters;
       _allocation_paradigm := get_from_name allocation_paradigm_str;
       _allocation_priority := match alloc_priority with Some p => p | None => 0 end;
       job_uuid := None;
       _rsa_key_pair := None;
       _status := JobStatus.CREATED;
       _allocations := None;
       _last_updated := 0 |}.

(** The getters. *)
Definition allocation_paradigm (self : JobImpl) := _allocation_paradigm self.
Definition allocation_priority (self : JobImpl) := _allocation_priority self.
Definition allocations (self : JobImpl) := _allocations self.
Definition cpu_count (self : JobImpl) := _cpu_count self.
Definition memory_size (self : JobImpl) := _memory_size self.
Definition last_updated (self : JobImpl) := _last_updated self.
Definition parameters (self : JobImpl) := _parameters self.
Definition rsa_key_pair (self : JobImpl) := _rsa_key_pair self.
Definition status (self : JobImpl) := _status self.
Definition status_phase (self : JobImpl) := JobStatus.job_exec_phase (status self).
Definition status_step (self : JobImpl) := JobStatus.job_exec_step (status self).

(** The getter of [job_id]:
    [self.job_uuid.bytes if isinstance(self.job_uuid, UUID) else None]. *)
Definition job_id (self : JobImpl) : pyobj :=
  match job_uuid self with
  | Some u => PyBytes (UUID_bytes u)
  | None => PyNone
  end.

(** The setters. *)
Definition set_allocation_priority (now : datetime) (priority : Z) (self : JobImpl)
    : JobImpl :=
  _reset_last_updated now (with_allocation_priority priority self).

Definition set_allocations (now : datetime) (allocations : list ResourceAllocation)
    (self : JobImpl) : JobImpl :=
  _reset_last_updated now (with_allocations (Some allocations) self).

Definition set_rsa_key_pair (now : datetime) (key_pair : RsaKeyPair) (self : JobImpl)
    : JobImpl :=
  _reset_last_updated now (with_rsa_key_pair (Some key_pair) self).

Definition set_status (now : datetime) (new_status : JobStatus.t) (self : JobImpl)
    : JobImpl :=
  _reset_last_updated now (with_status new_status self).

Definition set_status_phase (now : datetime) (phase : JobExecPhase.t) (self : JobImpl)
    : JobImpl :=
  set_status now
    (JobStatus.get_for_phase_and_step phase (JobExecPhase.default_start_step phase))
    self.

Definition set_status_step (now : datetime) (step : JobExecStep.t) (self : JobImpl)
    : JobImpl :=
  set_status now
    (JobStatus.get_for_phase_and_step (JobStatus.job_exec_phase (status self)) step)
    self.

(** The argument of the setter of [job_id], a [Union[str, UUID]]. *)
Inductive job_id_arg : Type :=
| IdStr (s : string)
| IdUUID (u : UUID).

(** The setter of [job_id]. On a [str] (for which [str(job_id)] is the
    string itself) the constructor of [UUID] runs first, and what it raises
    leaves the setter before any attribute is assigned. *)
Definition set_job_id (now : datetime) (job_id : job_id_arg) (self : JobImpl)
    : result JobImpl :=
  self' <- match job_id with
           | IdUUID u => Ok (with_job_uuid (Some u) self)
           | IdStr s =>
               match UUID_of_str s with
               | Some u => Ok (with_job_uuid (Some u) self)
               | None => Raise ValueError
               end
           end ;;
  Ok (_reset_last_updated now self').

(** [add_allocation]: the list is created through the setter of
    [allocations] when the attribute is [None]; the getter then gives the
    list and [append] adds to it in place ([AttributeError] if the getter
    gave [None]). *)
Definition add_allocation (now : datetime) (allocation : ResourceAllocation)
    (self : JobImpl) : result JobImpl :=
  let self :=
    match _allocations self with
    | None => set_allocations now [] self
    | Some _ => self
    end in
  match allocations self with
  | Some l => Ok (with_allocations (Some (l ++ [allocation])) self)
  | None => Raise AttributeError
  end.

(** One call of a mutator of a [JobImpl]. *)
Inductive mutation : Type :=
| SetAllocationPriority (priority : Z)
| SetAllocations (allocations : list ResourceAllocation)
| SetJobId (job_id : job_id_arg)
| SetRsaKeyPair (key_pair : RsaKeyPair)
| SetStatus (new_status : JobStatus.t)
| SetStatusPhase (phase : JobExecPhase.t)
| SetStatusStep (step : JobExecStep.t)
| AddAllocation (allocation : ResourceAllocation).

Definition mutate (now : datetime) (m : mutation) (self : JobImpl) : result JobImpl :=
  match m with
  | SetAllocationPriority priority => Ok (set_allocation_priority now priority self)
  | SetAllocations allocations => Ok (set_allocations now allocations self)
  | SetJobId job_id => set_job_id now job_id self
  | SetRsaKeyPair key_pair => Ok (set_rsa_key_pair now key_pair self)
  | SetStatus new_status => Ok (set_status now new_status self)
  | SetStatusPhase phase => Ok (set_status_phase now phase self)
  | SetStatusStep step => Ok (set_status_step now step self)
  | AddAllocation allocation => add_allocation now allocation self
  end.

(** The other operand of [Job.__eq__]: a job, or an object of another class,
    which is known here by its own [__eq__] method. *)
Inductive operand : Type :=
| AJob (other : JobImpl)
| NotAJob (other_eq : JobImpl -> pyobj).

(** [Job.__eq__]. *)
Definition Job_eq (self : JobImpl) (other : operand) : pyobj :=
  match other with
  | AJob other => PyBool (job_id_eq (job_id self) (job_id other))
  | NotAJob other_eq => other_eq self
  end.

(** [Job.__hash__]: [hash(self.job_id)]. *)
Definition Job_hash (self : JobImpl) : Z := hash (job_id self).

(** The fields a [RequestedJob] reads in a [SchedulerRequestMessage]. *)
Record SchedulerRequestMessage : Type := mkRequest {
  cpus : Z;
  memory : Z;
  model_request_parameters : Parameters;
  request_allocation_paradigm : pyobj
}.

(** A [RequestedJob]: a [JobImpl] and the request it comes from. *)
Record RequestedJob : Type := mkRequestedJob {
  _originating_request : SchedulerRequestMessage;
  as_JobImpl : JobImpl
}.

(** [RequestedJob.__init__]. *)
Definition RequestedJob_init (now : datetime) (job_request : SchedulerRequestMessage)
    : RequestedJob :=
  {| _originating_request := job_request;
     as_JobImpl :=
       JobImpl_init now (cpus job_request) (memory job_request)
         (model_request_parameters job_request)
         (request_allocation_paradigm job_request) None |}.

Definition originating_request (self : RequestedJob) := _originating_request self.

End Jobs.

(** ** A constructor of identifiers to run the model with *)

Definition hex_digit (c : ascii) : option Z :=
  let n := Z.of_N (N_of_ascii c) in
  if (48 <=? n) && (n <=? 57) then Some (n - 48)
  else if (97 <=? n) && (n <=? 102) then Some (n - 87)
  else if (65 <=? n) && (n <=? 70) then Some (n - 55)
  else None.

Fixpoint hex_value (acc : Z) (s : string) : option Z :=
  match s with
  | EmptyString => Some acc
  | String c s' =>
      match hex_digit c with
      | Some d => hex_value (16 * acc + d) s'
      | None => None
      end
  end.

Fixpoint without_hyphens (s : string) : string :=
  match s with
  | EmptyString => EmptyString
  | String c s' =>
      if (c =? "-")%char then without_hyphens s' else String c (without_hyphens s')
  end.

(** A constructor of identifiers for the examples, not the library's
    [uuid.UUID(hex)]: it reads the strings that are 32 hexadecimal digits
    once their hyphens are removed, the canonical 8-4-4-4-12 form among
    them, to the value the library gives them, and answers [None] on every
    other string, also on the forms in braces, with a [urn:uuid:] prefix or
    with the signs, prefixes and underscores of [int(s, 16)] that the library
    reads as well. Every property below is proved of an arbitrary
    constructor; this one is evaluated on [sample_id] and [malformed_id]
    only, where it agrees with the library. *)
Definition UUID_of_hex (hex : string) : option UUID :=
  let hex := without_hyphens hex in
  if (String.length hex =? 32)%nat then option_map mkUUID (hex_value 0 hex) else None.

(** ** The table of the specification *)

(** The closed table of the specification, one row a status:
    (id, phase, step, release flag). *)
Definition spec_row (s : JobStatus.t) : Z * JobExecPhase.t * JobExecStep.t * bool :=
  match s with
  | JobStatus.CREATED =>
      (0, JobExecPhase.INIT, JobExecStep.DEFAULT, false)
  | JobStatus.MODEL_EXEC_AWAITING_ALLOCATION =>
      (1, JobExecPhase.MODEL_EXEC, JobExecStep.AWAITING_ALLOCATION, false)
  | JobStatus.MODEL_EXEC_ALLOCATED =>
      (2, JobExecPhase.MODEL_EXEC, JobExecStep.ALLOCATED, false)
  | JobStatus.MODEL_EXEC_SCHEDULED =>
      (3, JobExecPhase.MODEL_EXEC, JobExecStep.SCHEDULED, false)
  | JobStatus.MODEL_EXEC_RUNNING =>
      (4, JobExecPhase.MODEL_EXEC, JobExecStep.RUNNING, false)
  | JobStatus.MODEL_EXEC_STOPPED =>
      (5, JobExecPhase.MODEL_EXEC, JobExecStep.STOPPED, false)
  | JobStatus.MODEL_EXEC_COMPLETED =>
      (6, JobExecPhase.MODEL_EXEC, JobExecStep.COMPLETED, false)
  | JobStatus.OUTPUT_EXEC_RUNNING =>
      (7, JobExecPhase.OUTPUT_EXEC, JobExecStep.RUNNING, false)
  | JobStatus.OUTPUT_EXEC_STOPPED =>
      (8, JobExecPhase.OUTPUT_EXEC, JobExecStep.STOPPED, false)
  | JobStatus.OUTPUT_EXEC_COMPLETED =>
      (9, JobExecPhase.OUTPUT_EXEC, JobExecStep.COMPLETED, true)
  | JobStatus.CLOSED =>
      (10, JobExecPhase.CLOSED, JobExecStep.COMPLETED, true)
  | JobStatus.OUTPUT_EXEC_SCHEDULED =>
      (11, JobExecPhase.OUTPUT_EXEC, JobExecStep.SCHEDULED, false)
  | JobStatus.OUTPUT_EXEC_ALLOCATED =>
      (12, JobExecPhase.OUTPUT_EXEC, JobExecStep.ALLOCATED, false)
  | JobStatus.OUTPUT_EXEC_AWAITING_ALLOCATION =>
      (13, JobExecPhase.OUTPUT_EXEC, JobExecStep.AWAITING_ALLOCATION, false)
  | JobStatus.MODEL_EXEC_FAILED =>
      (-1, JobExecPhase.MODEL_EXEC, JobExecStep.FAILED, true)
  | JobStatus.OUTPUT_EXEC_FAILED =>
      (-2, JobExecPhase.OUTPUT_EXEC, JobExecStep.FAILED, true)
  | JobStatus.CLOSED_FAILURE =>
      (-3, JobExecPhase.CLOSED, JobExecStep.FAILED, true)
  | JobStatus.UNKNOWN =>
      (-10, JobExecPhase.UNKNOWN, JobExecStep.DEFAULT, false)
  end.

(** The statuses in the order of the rows of that table. *)
Definition spec_table_order : list JobStatus.t :=
  [ JobStatus.CREATED;
    JobStatus.MODEL_EXEC_AWAITING_ALLOCATION; JobStatus.MODEL_EXEC_ALLOCATED;
    JobStatus.MODEL_EXEC_SCHEDULED; JobStatus.MODEL_EXEC_RUNNING;
    JobStatus.MODEL_EXEC_STOPPED; JobStatus.MODEL_EXEC_COMPLETED;
    JobStatus.OUTPUT_EXEC_RUNNING; JobStatus.OUTPUT_EXEC_STOPPED;
    JobStatus.OUTPUT_EXEC_COMPLETED;
    JobStatus.CLOSED;
    JobStatus.OUTPUT_EXEC_SCHEDULED; JobStatus.OUTPUT_EXEC_ALLOCATED;
    JobStatus.OUTPUT_EXEC_AWAITING_ALLOCATION;
    JobStatus.MODEL_EXEC_FAILED; JobStatus.OUTPUT_EXEC_FAILED;
    JobStatus.CLOSED_FAILURE;
    JobStatus.UNKNOWN ].

(** What the specification has [active_statuses] return: the statuses of an
    active phase (INIT, MODEL_EXEC, OUTPUT_EXEC), in the order of the table. *)
Definition spec_active_statuses : list JobStatus.t :=
  filter
    (fun s =>
       match snd (fst (fst (spec_row s))) with
       | JobExecPhase.INIT | JobExecPhase.MODEL_EXEC | JobExecPhase.OUTPUT_EXEC => true
       | JobExecPhase.CLOSED | JobExecPhase.UNKNOWN => false
       end)
    spec_table_order.

(** ** Jobs to run the model on *)

(** [JobImpl(4, 1024, {}, "ROUND_ROBIN")] made at time 100, with natural
    numbers for the allocation grants. *)
Definition sample_job : @JobImpl nat unit unit :=
  JobImpl_init 100 4 1024 tt (PyStr "ROUND_ROBIN") None.

(** [JobImpl(1, 16, {}, "SINGLE_NODE", 5)] made at time 150. *)
Definition other_sample_job : @JobImpl nat unit unit :=
  JobImpl_init 150 1 16 tt (PyStr "SINGLE_NODE") (Some 5).

(** A canonical identifier and a string that is none. *)
Definition sample_id : string := "12345678-1234-5678-1234-567812345678".
Definition malformed_id : string := "not-an-identifier".

(** The identifier that [sample_id] writes. *)
Definition sample_uuid : UUID := mkUUID 0x12345678123456781234567812345678.

(** The two jobs once [sample_id] is assigned to their [job_id], at times
    200 and 300. *)
Definition sample_job_with_id : @JobImpl nat unit unit :=
  _reset_last_updated 200 (with_job_uuid (Some sample_uuid) sample_job).

Definition other_sample_job_with_id : @JobImpl nat unit unit :=
  _reset_last_updated 300 (with_job_uuid (Some sample_uuid) other_sample_job).

(** A stand-in for the builtin [hash] on the values [job_id] returns. *)
Definition sample_hash (v : pyobj) : Z :=
  match v with
  | PyBytes b => fold_left (fun h x => (31 * h + Z.of_N (Byte.to_N x)) mod 2 ^ 61) b 7
  | _ => 0
  end.

(** ** Sequences of calls *)

Section Runs.

Context {ResourceAllocation RsaKeyPair Parameters : Type}.
Variable UUID_of_str : string -> option UUID.

(** The calls of mutators made on one job, in order, each with the time
    [datetime.now()] reads during the call; the first call that raises ends
    the run with its error. *)
Fixpoint run (calls : list (datetime * @mutation ResourceAllocation RsaKeyPair))
    (self : @JobImpl ResourceAllocation RsaKeyPair Parameters)
    : result (@JobImpl ResourceAllocation RsaKeyPair Parameters) :=
  match calls with
  | [] => Ok self
  | (now, m) :: rest => self' <- mutate UUID_of_str now m self ;; run rest self'
  end.

(** The clock does not go back: from the time [t] on, the times of the calls
    never decrease. *)
Fixpoint clock_from (t : datetime)
    (calls : list (datetime * @mutation ResourceAllocation RsaKeyPair)) : Prop :=
  match calls with
  | [] => True
  | (now, _) :: rest => t <= now /\ clock_from now rest
  end.

End Runs.

(** ** Auxiliary notions of the statements *)

(** A string of blanks only (the empty string among them). *)
Fixpoint blank (s : string) : bool :=
  match s with
  | EmptyString => true
  | String c s' => PyStr.isspace c && blank s'
  end.

(** [int.from_bytes(b, 'big')], the converse of [to_bytes_big]. *)
Definition int_from_bytes_big (b : list byte) : Z :=
  fold_left (fun acc x => 256 * acc + Z.of_N (Byte.to_N x)) b 0.

(** The integers a [UUID] can hold: the constructor refuses the others. *)
Definition UUID_valid (u : UUID) : Prop := 0 <= uuid_int u < 2 ^ 128.

(** A run on [sample_job]: a grant at time 200, the phase MODEL_EXEC and a
    second grant at time 300; and the job that comes out of it. *)
Definition sample_calls : list (datetime * @mutation nat unit) :=
  [ (200, AddAllocation 7%nat);
    (300, SetStatusPhase JobExecPhase.MODEL_EXEC);
    (300, AddAllocation 8%nat) ].

Definition sample_run_result : @JobImpl nat unit unit :=
  with_allocations (Some [7%nat; 8%nat])
    (set_status_phase 300 JobExecPhase.MODEL_EXEC
       (with_allocations (Some [7%nat]) (set_allocations 200 [] sample_job))).

(** * Properties *)

(** ** Decidable equalities *)

Lemma JobExecStep_eqb_spec (a b : JobExecStep.t) : reflect (a = b) (JobExecStep.eqb a b).
Proof. destruct a, b; constructor; congruence. Qed.

Lemma JobExecPhase_eqb_spec (a b : JobExecPhase.t) : reflect (a = b) (JobExecPhase.eqb a b).
Proof. destruct a, b; constructor; congruence. Qed.

Lemma JobStatus_uid_inj (a b : JobStatus.t) : JobStatus.uid a = JobStatus.uid b -> a = b.
Proof. destruct a, b; intros H; try reflexivity; discriminate H. Qed.

Lemma JobStatus_all_members (s : JobStatus.t) : In s JobStatus.members.
Proof. destruct s; simpl; tauto. Qed.

Lemma bytes_eqb_eq (x y : list byte) : bytes_eqb x y = true <-> x = y.
Proof.
  revert y; induction x as [|a x IH]; intros [|b y]; simpl; split; intros H;
    try reflexivity; try discriminate H.
  - apply andb_true_iff in H as [Hab Hxy].
    apply Byte.byte_dec_bl in Hab. apply IH in Hxy. congruence.
  - injection H as -> ->. apply andb_true_iff; split.
    + now apply Byte.byte_dec_lb.
    + now apply IH.
Qed.

(** ** The paradigm selector *)

(** A string whose trimmed form is the name of a paradigm selects that
    paradigm. *)
Lemma get_from_name_member (s : string) (p : JobAllocationParadigm.t) :
  PyStr.strip s = JobAllocationParadigm.name p -> get_from_name (PyStr s) = Some p.
Proof.
  intros H. unfold get_from_name. rewrite H. now destruct p.
Qed.

(** Whatever is not a string, and every string whose trimmed form is no
    paradigm's name, gets what [get_default_selection] returns. *)
Lemma get_from_name_fallback (name : pyobj) :
  (forall s, name = PyStr s ->
     forall p, PyStr.strip s <> JobAllocationParadigm.name p) ->
  get_from_name name = get_default_selection.
Proof.
  intros H. destruct name as [| | | | |s| | |]; try reflexivity.
  unfold get_from_name, JobAllocationParadigm.members, first_paradigm_named.
  specialize (H s eq_refl).
  destruct (String.eqb_spec (JobAllocationParadigm.name JobAllocationParadigm.FILL_NODES)
              (PyStr.strip s)) as [E|_]; [now elim (H _ (eq_sym E))|].
  destruct (String.eqb_spec (JobAllocationParadigm.name JobAllocationParadigm.ROUND_ROBIN)
              (PyStr.strip s)) as [E|_]; [now elim (H _ (eq_sym E))|].
  destruct (String.eqb_spec (JobAllocationParadigm.name JobAllocationParadigm.SINGLE_NODE)
              (PyStr.strip s)) as [E|_]; [now elim (H _ (eq_sym E))|].
  reflexivity.
Qed.

(** C1, at the inputs where the code departs from it: on [None], on a value
    that is not a string and on the unmatched name ["bogus"],
    [get_from_name] returns what [get_default_selection] returns, and that
    method has no [return] statement: the result is Python's [None], not
    [SINGLE_NODE]. A name that matches is still resolved, blanks trimmed and
    case kept. *)
Theorem get_from_name_fallback_is_None :
  get_from_name PyNone = None
  /\ get_from_name (PyInt 2) = None
  /\ get_from_name (PyStr "bogus") = None
  /\ get_from_name PyNone <> Some JobAllocationParadigm.SINGLE_NODE
  /\ get_from_name (PyStr "  ROUND_ROBIN ") = Some JobAllocationParadigm.ROUND_ROBIN
  /\ get_from_name (PyStr "round_robin") = None.
Proof. repeat split; try reflexivity. discriminate. Qed.

(** ** The table of statuses *)

(** C2: each of the 18 statuses has the id, the phase, the step and the
    release flag of its row in the table of the specification, and no two
    statuses have the same phase and step. *)
Theorem status_table_matches_spec :
  (forall s : JobStatus.t,
     (JobStatus.uid s, JobStatus.job_exec_phase s, JobStatus.job_exec_step s,
      JobStatus.should_release_allocations s) = spec_row s)
  /\ List.length JobStatus.members = 18%nat
  /\ NoDup JobStatus.members
  /\ (forall s : JobStatus.t, In s JobStatus.members)
  /\ (forall s t : JobStatus.t,
        JobStatus.job_exec_phase s = JobStatus.job_exec_phase t ->
        JobStatus.job_exec_step s = JobStatus.job_exec_step t ->
        s = t).
Proof.
  split; [|split; [|split; [|split]]].
  - intros s; destruct s; reflexivity.
  - reflexivity.
  - unfold JobStatus.members.
    repeat (constructor; [simpl; intuition discriminate|]). constructor.
  - exact JobStatus_all_members.
  - intros s t Hp Hs; destruct s, t; try reflexivity; discriminate.
Qed.

(** The loop of [get_for_phase_and_step] finds a status by its own phase and
    step. *)
Lemma get_for_phase_and_step_own (st : JobStatus.t) :
  JobStatus.get_for_phase_and_step (JobStatus.job_exec_phase st) (JobStatus.job_exec_step st)
  = st.
Proof. destruct st; reflexivity. Qed.

(** What the lookup returns is [UNKNOWN] or a status of the phase and step
    asked for. *)
Lemma get_for_phase_and_step_sound (p : JobExecPhase.t) (s : JobExecStep.t) :
  JobStatus.get_for_phase_and_step p s = JobStatus.UNKNOWN
  \/ (JobStatus.job_exec_phase (JobStatus.get_for_phase_and_step p s) = p
      /\ JobStatus.job_exec_step (JobStatus.get_for_phase_and_step p s) = s).
Proof. destruct p, s; (left; reflexivity) || (right; split; reflexivity). Qed.

(** C3: [get_for_phase_and_step] is a total function (nothing it does
    raises, and the bare [except] guards the loop besides); on a pair of the
    table it returns the one status of that phase and step, on every other
    pair it returns [UNKNOWN], as on (INIT, RUNNING). *)
Theorem get_for_phase_and_step_table (p : JobExecPhase.t) (s : JobExecStep.t) :
  (forall st : JobStatus.t,
     JobStatus.job_exec_phase st = p -> JobStatus.job_exec_step st = s ->
     JobStatus.get_for_phase_and_step p s = st)
  /\ ((forall st : JobStatus.t,
         ~ (JobStatus.job_exec_phase st = p /\ JobStatus.job_exec_step st = s)) ->
      JobStatus.get_for_phase_and_step p s = JobStatus.UNKNOWN)
  /\ JobStatus.get_for_phase_and_step JobExecPhase.INIT JobExecStep.RUNNING
     = JobStatus.UNKNOWN.
Proof.
  split; [|split].
  - intros st <- <-. apply get_for_phase_and_step_own.
  - intros Hnone.
    destruct (get_for_phase_and_step_sound p s) as [H|H]; [exact H|].
    elim (Hnone _ H).
  - reflexivity.
Qed.

(** ** The active statuses *)

(** C4 as stated fails: the list the code returns is not in the order of the
    rows of the table. *)
Lemma get_active_statuses_not_in_table_order :
  spec_active_statuses
  = [ JobStatus.CREATED;
      JobStatus.MODEL_EXEC_AWAITING_ALLOCATION; JobStatus.MODEL_EXEC_ALLOCATED;
      JobStatus.MODEL_EXEC_SCHEDULED; JobStatus.MODEL_EXEC_RUNNING;
      JobStatus.MODEL_EXEC_STOPPED; JobStatus.MODEL_EXEC_COMPLETED;
      JobStatus.OUTPUT_EXEC_RUNNING; JobStatus.OUTPUT_EXEC_STOPPED;
      JobStatus.OUTPUT_EXEC_COMPLETED;
      JobStatus.OUTPUT_EXEC_SCHEDULED; JobStatus.OUTPUT_EXEC_ALLOCATED;
      JobStatus.OUTPUT_EXEC_AWAITING_ALLOCATION;
      JobStatus.MODEL_EXEC_FAILED; JobStatus.OUTPUT_EXEC_FAILED ]
  /\ JobStatus.get_active_statuses <> spec_active_statuses
  /\ nth_error JobStatus.get_active_statuses 7 = Some JobStatus.MODEL_EXEC_FAILED
  /\ nth_error spec_active_statuses 7 = Some JobStatus.OUTPUT_EXEC_RUNNING.
Proof. repeat split. vm_compute. discriminate. Qed.

(** C4, amended: [get_active_statuses] returns exactly the statuses of an
    active phase, that is of INIT, MODEL_EXEC or OUTPUT_EXEC and none of
    CLOSED or UNKNOWN, each once, in the order in which the class declares
    its members; these are the statuses the specification lists, in another
    order. *)
Theorem get_active_statuses_declaration_order :
  JobStatus.get_active_statuses
  = [ JobStatus.CREATED;
      JobStatus.MODEL_EXEC_AWAITING_ALLOCATION; JobStatus.MODEL_EXEC_ALLOCATED;
      JobStatus.MODEL_EXEC_SCHEDULED; JobStatus.MODEL_EXEC_RUNNING;
      JobStatus.MODEL_EXEC_STOPPED; JobStatus.MODEL_EXEC_COMPLETED;
      JobStatus.MODEL_EXEC_FAILED;
      JobStatus.OUTPUT_EXEC_AWAITING_ALLOCATION; JobStatus.OUTPUT_EXEC_ALLOCATED;
      JobStatus.OUTPUT_EXEC_SCHEDULED; JobStatus.OUTPUT_EXEC_RUNNING;
      JobStatus.OUTPUT_EXEC_STOPPED; JobStatus.OUTPUT_EXEC_COMPLETED;
      JobStatus.OUTPUT_EXEC_FAILED ]
  /\ JobStatus.get_active_statuses = filter JobStatus.is_active JobStatus.members
  /\ NoDup JobStatus.get_active_statuses
  /\ (forall s : JobStatus.t,
        In s JobStatus.get_active_statuses
        <-> JobExecPhase.is_active (JobStatus.job_exec_phase s) = true)
  /\ (forall s : JobStatus.t,
        In s JobStatus.get_active_statuses
        <-> (JobStatus.job_exec_phase s = JobExecPhase.INIT
             \/ JobStatus.job_exec_phase s = JobExecPhase.MODEL_EXEC
             \/ JobStatus.job_exec_phase s = JobExecPhase.OUTPUT_EXEC))
  /\ (forall s : JobStatus.t, In s JobStatus.get_active_statuses <-> In s spec_active_statuses).
Proof.
  assert (Hfilter :
    JobStatus.get_active_statuses = filter JobStatus.is_active JobStatus.members)
    by reflexivity.
  split; [reflexivity|]. split; [exact Hfilter|]. split; [|split; [|split]].
  - rewrite Hfilter. apply NoDup_filter.
    unfold JobStatus.members.
    repeat (constructor; [simpl; intuition discriminate|]). constructor.
  - intros s. rewrite Hfilter, filter_In. unfold JobStatus.is_active.
    split; [tauto|]. intros H; split; [apply JobStatus_all_members|exact H].
  - intros s. rewrite Hfilter, filter_In. split.
    + intros [_ H]. destruct s; simpl; auto; discriminate H.
    + intros H; split; [apply JobStatus_all_members|].
      destruct s; try reflexivity; destruct H as [H|[H|H]]; discriminate H.
  - intros s. rewrite Hfilter. unfold spec_active_statuses. rewrite !filter_In. split.
    + intros [_ H]; split; [destruct s; simpl; tauto|].
      destruct s; try reflexivity; discriminate H.
    + intros [_ H]; split; [apply JobStatus_all_members|].
      destruct s; try reflexivity; discriminate H.
Qed.

(** ** Statuses by name, equality and hash *)

Lemma JobStatus_name_formatted (t : JobStatus.t) :
  PyStr.strip (PyStr.lower (JobStatus.name t)) = PyStr.lower (JobStatus.name t).
Proof. destruct t; reflexivity. Qed.

Lemma first_status_named_sound (todo : list JobStatus.t) (formatted_name : string)
    (value : JobStatus.t) :
  first_status_named todo formatted_name = Some value ->
  formatted_name = PyStr.strip (PyStr.lower (JobStatus.name value)).
Proof.
  induction todo as [|v rest IH]; simpl; [discriminate|].
  destruct (String.eqb_spec formatted_name (PyStr.strip (PyStr.lower (JobStatus.name v))))
    as [E|_].
  - intros [= <-]. exact E.
  - exact IH.
Qed.

(** A name of a status, in any case and with blanks around it, resolves to
    that status. *)
Lemma get_for_name_named (x : string) (s : JobStatus.t) :
  PyStr.strip (PyStr.lower x) = PyStr.lower (JobStatus.name s) ->
  get_for_name (PyStr x) = s.
Proof.
  intros H. destruct x as [|c x].
  - destruct s; discriminate H.
  - unfold get_for_name.
    replace (PyStr.len (String c x) =? 0) with false
      by (symmetry; apply Z.eqb_neq; unfold PyStr.len; simpl String.length; lia).
    cbv zeta. rewrite H. destruct s; reflexivity.
Qed.

(** A string that is the name of no status resolves to [UNKNOWN]. *)
Lemma get_for_name_unrecognized (x : string) :
  (forall t, PyStr.strip (PyStr.lower x) <> PyStr.lower (JobStatus.name t)) ->
  get_for_name (PyStr x) = JobStatus.UNKNOWN.
Proof.
  intros H. unfold get_for_name.
  destruct (PyStr.len x =? 0); [reflexivity|]. cbv zeta.
  destruct (first_status_named JobStatus.members (PyStr.strip (PyStr.lower x)))
    as [v|] eqn:E; [|reflexivity].
  apply first_status_named_sound in E. rewrite JobStatus_name_formatted in E.
  elim (H _ E).
Qed.

Lemma JobStatus_uid_eqb (a b : JobStatus.t) :
  (JobStatus.uid a =? JobStatus.uid b) = true <-> a = b.
Proof.
  rewrite Z.eqb_eq. split; [apply JobStatus_uid_inj|now intros ->].
Qed.

(** C9 as stated fails on the hash: the uid of MODEL_EXEC_FAILED is -1, and
    [hash] of an object never evaluates to -1: the hash of that status is
    -2, which is also the hash of OUTPUT_EXEC_FAILED. *)
Lemma JobStatus_hash_differs_from_uid :
  JobStatus.uid JobStatus.MODEL_EXEC_FAILED = -1
  /\ JobStatus_builtin_hash JobStatus.MODEL_EXEC_FAILED = -2
  /\ JobStatus_builtin_hash JobStatus.MODEL_EXEC_FAILED
     <> JobStatus.uid JobStatus.MODEL_EXEC_FAILED
  /\ JobStatus_builtin_hash JobStatus.MODEL_EXEC_FAILED
     = JobStatus_builtin_hash JobStatus.OUTPUT_EXEC_FAILED.
Proof. repeat split. discriminate. Qed.

(** C9, amended: a status is equal to the statuses of its uid (itself
    alone), to the ints and [bool]s equal to its uid, to the integer-valued
    floats equal to its uid, and to the strings that [get_for_name] resolves
    to it, its name in any case and with blanks around among them; hence
    [UNKNOWN] is equal to every string that names no status. It is equal to
    nothing else. The method [__hash__] returns the uid, and the hash of a
    status is its uid for every status but MODEL_EXEC_FAILED, of uid -1,
    whose hash is -2: two statuses have the same hash when they are the same
    or are MODEL_EXEC_FAILED and OUTPUT_EXEC_FAILED. *)
Theorem JobStatus_eq_cases (self : JobStatus.t) :
  (forall o : JobStatus.t,
     JobStatus_eq self (PyJobStatus o) = (JobStatus.uid self =? JobStatus.uid o)
     /\ (JobStatus_eq self (PyJobStatus o) = true <-> self = o))
  /\ (forall n : Z, JobStatus_eq self (PyInt n) = (JobStatus.uid self =? n))
  /\ (forall b : bool,
        JobStatus_eq self (PyBool b) = (JobStatus.uid self =? (if b then 1 else 0)))
  /\ (forall f : pyfloat,
        float_is_integer f = true ->
        JobStatus_eq self (PyFloat f) = (JobStatus.uid self =? float_to_int f))
  /\ (forall x : string,
        JobStatus_eq self (PyStr x) = true <-> get_for_name (PyStr x) = self)
  /\ (forall x : string,
        PyStr.strip (PyStr.lower x) = PyStr.lower (JobStatus.name self) ->
        JobStatus_eq self (PyStr x) = true)
  /\ (forall x : string,
        (forall t, PyStr.strip (PyStr.lower x) <> PyStr.lower (JobStatus.name t)) ->
        JobStatus_eq JobStatus.UNKNOWN (PyStr x) = true)
  /\ (forall f : pyfloat,
        float_is_integer f = false -> JobStatus_eq self (PyFloat f) = false)
  /\ JobStatus_eq self PyNone = false
  /\ JobStatus_eq self PyNotImplemented = false
  /\ (forall b : list byte, JobStatus_eq self (PyBytes b) = false)
  /\ (forall id : nat, JobStatus_eq self (PyObject id) = false)
  /\ JobStatus_hash self = JobStatus.uid self
  /\ JobStatus_builtin_hash self
     = (if JobStatus.uid self =? -1 then -2 else JobStatus.uid self)
  /\ (self <> JobStatus.MODEL_EXEC_FAILED ->
      JobStatus_builtin_hash self = JobStatus.uid self)
  /\ (forall o : JobStatus.t,
        JobStatus_builtin_hash self = JobStatus_builtin_hash o
        <-> (self = o
             \/ (self = JobStatus.MODEL_EXEC_FAILED /\ o = JobStatus.OUTPUT_EXEC_FAILED)
             \/ (self = JobStatus.OUTPUT_EXEC_FAILED /\ o = JobStatus.MODEL_EXEC_FAILED))).
Proof.
  repeat match goal with |- _ /\ _ => split end; try reflexivity.
  - intros o; split; [reflexivity|]. simpl. apply JobStatus_uid_eqb.
  - intros f Hf. unfold JobStatus_eq. now rewrite Hf.
  - intros x. unfold JobStatus_eq. rewrite JobStatus_uid_eqb.
    split; intros H; now symmetry.
  - intros x H. unfold JobStatus_eq. rewrite (get_for_name_named x self H).
    apply Z.eqb_refl.
  - intros x H. unfold JobStatus_eq. rewrite (get_for_name_unrecognized x H).
    reflexivity.
  - intros f Hf. unfold JobStatus_eq. now rewrite Hf.
  - destruct self; reflexivity.
  - destruct self; intros H; try reflexivity. now elim H.
  - intros o; destruct self, o; cbv; intuition (try discriminate; try congruence).
Qed.

(** The equality at work. *)
Example JobStatus_eq_examples :
  JobStatus_eq JobStatus.MODEL_EXEC_RUNNING (PyInt 4) = true
  /\ JobStatus_eq JobStatus.MODEL_EXEC_RUNNING (PyFloat (FFinite 1 2)) = true
  /\ JobStatus_eq JobStatus.MODEL_EXEC_RUNNING (PyFloat (FFinite 9 (-1))) = false
  /\ JobStatus_eq JobStatus.MODEL_EXEC_RUNNING (PyStr " model_exec_Running ") = true
  /\ JobStatus_eq JobStatus.UNKNOWN (PyStr "no such status") = true
  /\ JobStatus_eq JobStatus.UNKNOWN (PyStr "") = true
  /\ JobStatus_eq JobStatus.CREATED (PyStr "no such status") = false
  /\ JobStatus_eq JobStatus.CREATED (PyBool false) = true
  /\ JobStatus_eq JobStatus.CLOSED (PyFloat (FInf false)) = false.
Proof. repeat split. Qed.

Lemma first_paradigm_named_sound (todo : list JobAllocationParadigm.t)
    (trimmed_name : string) (p : JobAllocationParadigm.t) :
  first_paradigm_named todo trimmed_name = Some p ->
  JobAllocationParadigm.name p = trimmed_name.
Proof.
  induction todo as [|v rest IH]; simpl; [discriminate|].
  destruct (String.eqb_spec (JobAllocationParadigm.name v) trimmed_name) as [E|_].
  - intros [= <-]. exact E.
  - exact IH.
Qed.

(** A paradigm is selected by its name, blanks around it trimmed, and by no
    other string: the match is exact, case included. *)
Theorem get_from_name_exact (p : JobAllocationParadigm.t) :
  get_from_name (PyStr (JobAllocationParadigm.name p)) = Some p
  /\ (forall s : string,
        get_from_name (PyStr s) = Some p <-> PyStr.strip s = JobAllocationParadigm.name p)
  /\ get_from_name (PyStr (PyStr.lower (JobAllocationParadigm.name p))) <> Some p.
Proof.
  split; [now destruct p|]. split; [|now destruct p].
  intros s; split; [|apply get_from_name_member].
  unfold get_from_name, get_default_selection.
  destruct (first_paradigm_named JobAllocationParadigm.members (PyStr.strip s))
    as [q|] eqn:E; [|discriminate].
  intros [= ->]. symmetry. now apply first_paradigm_named_sound in E.
Qed.

(** The name of a status, in any case and with blanks around it, resolves to
    the status. *)
Theorem get_for_name_any_case (s : JobStatus.t) :
  get_for_name (PyStr (JobStatus.name s)) = s
  /\ get_for_name (PyStr (PyStr.lower (JobStatus.name s))) = s
  /\ get_for_name (PyStr (" " ++ JobStatus.name s ++ "  ")) = s
  /\ (forall x : string,
        PyStr.strip (PyStr.lower x) = PyStr.lower (JobStatus.name s) ->
        get_for_name (PyStr x) = s).
Proof.
  split; [now destruct s|]. split; [now destruct s|]. split; [now destruct s|].
  intros x. apply get_for_name_named.
Qed.

(** ** Jobs *)

Section JobProperties.

Context {ResourceAllocation RsaKeyPair Parameters : Type}.
Variable UUID_of_str : string -> option UUID.
Variable hash : pyobj -> Z.

Local Abbreviation Job := (@JobImpl ResourceAllocation RsaKeyPair Parameters).

Lemma last_updated_reset (now : datetime) (self : Job) :
  last_updated (_reset_last_updated now self) = now.
Proof. reflexivity. Qed.

(** [add_allocation] on a job that holds a list appends to it and touches
    nothing else, the time stamp included. *)
Lemma add_allocation_existing (now : datetime) (a : ResourceAllocation) (self : Job)
    (l : list ResourceAllocation) :
  _allocations self = Some l ->
  add_allocation now a self = Ok (with_allocations (Some (l ++ [a])) self).
Proof. intros H. unfold add_allocation, allocations. rewrite H. now rewrite H. Qed.

(** [add_allocation] on a job that holds no list goes through the setter of
    [allocations]. *)
Lemma add_allocation_first (now : datetime) (a : ResourceAllocation) (self : Job) :
  _allocations self = None ->
  add_allocation now a self
  = Ok (with_allocations (Some [a]) (set_allocations now [] self)).
Proof. intros H. unfold add_allocation, allocations. now rewrite H. Qed.

Lemma add_allocation_returns (now : datetime) (a : ResourceAllocation) (self : Job) :
  exists self', add_allocation now a self = Ok self'.
Proof.
  destruct (_allocations self) as [l|] eqn:E.
  - eexists. apply add_allocation_existing. exact E.
  - eexists. apply add_allocation_first. exact E.
Qed.

(** C7: whatever the job and its status, assigning MODEL_EXEC to
    [status_phase] leaves the job in MODEL_EXEC_AWAITING_ALLOCATION: the
    setter looks up the phase with its default start step. *)
Theorem set_status_phase_MODEL_EXEC (now : datetime) (self : Job) :
  status (set_status_phase now JobExecPhase.MODEL_EXEC self)
  = JobStatus.MODEL_EXEC_AWAITING_ALLOCATION
  /\ JobStatus_eq (status (set_status_phase now JobExecPhase.MODEL_EXEC self))
       (PyJobStatus JobStatus.MODEL_EXEC_AWAITING_ALLOCATION) = true
  /\ (forall phase : JobExecPhase.t,
        status (set_status_phase now phase self)
        = JobStatus.get_for_phase_and_step phase (JobExecPhase.default_start_step phase))
  /\ status_phase (set_status_phase now JobExecPhase.MODEL_EXEC self)
     = JobExecPhase.MODEL_EXEC
  /\ status_step (set_status_phase now JobExecPhase.MODEL_EXEC self)
     = JobExecPhase.default_start_step JobExecPhase.MODEL_EXEC.
Proof. repeat split. Qed.

(** C8: the setter of [job_id] raises the error of the constructor of
    identifiers ([ValueError], the invalid-identifier error) on a string the
    constructor cannot read, and nothing catches it; on a string it reads
    and on a [UUID] the setter succeeds and stores the identifier. Every
    other mutator returns. *)
Theorem set_job_id_sole_failure (now : datetime) (self : Job) :
  (forall s : string,
     UUID_of_str s = None ->
     set_job_id UUID_of_str now (IdStr s) self = Raise ValueError
     /\ mutate UUID_of_str now (SetJobId (IdStr s)) self = Raise ValueError)
  /\ (forall (s : string) (u : UUID),
        UUID_of_str s = Some u ->
        exists self',
          set_job_id UUID_of_str now (IdStr s) self = Ok self'
          /\ job_uuid self' = Some u)
  /\ (forall u : UUID,
        exists self',
          set_job_id UUID_of_str now (IdUUID u) self = Ok self'
          /\ job_uuid self' = Some u)
  /\ (forall m : mutation,
        (forall s, m <> SetJobId (IdStr s)) ->
        exists self', mutate UUID_of_str now m self = Ok self').
Proof.
  split; [|split; [|split]].
  - intros s H. unfold mutate, set_job_id. rewrite H. split; reflexivity.
  - intros s u H. unfold set_job_id. rewrite H. eexists; split; reflexivity.
  - intros u. eexists; split; reflexivity.
  - intros m Hm. destruct m as [p|l|[s|u]|k|st|ph|sp|a]; simpl;
      try (eexists; reflexivity).
    + elim (Hm s eq_refl).
    + apply add_allocation_returns.
Qed.

Lemma job_id_eq_eq (a b : Job) :
  job_id_eq (job_id a) (job_id b) = true <-> job_id a = job_id b.
Proof.
  unfold job_id. destruct (job_uuid a) as [u|], (job_uuid b) as [v|];
    cbn [job_id_eq].
  - generalize (UUID_bytes u) (UUID_bytes v); intros x y.
    rewrite bytes_eqb_eq. split; [now intros ->|now intros [= ->]].
  - split; discriminate.
  - split; discriminate.
  - split; reflexivity.
Qed.

(** C6: two jobs are equal exactly when their [job_id]s are, whatever
    their other attributes, as for two jobs made from different resources
    and parameters and given one identifier, which also have one hash; the
    hash of a job is the hash of its [job_id]; and against an operand that
    is not a job the answer is the one of that operand's own [__eq__]. *)
Theorem Job_eq_by_job_id (a b : Job) :
  (Job_eq a (AJob b) = PyBool true <-> job_id a = job_id b)
  /\ (Job_eq a (AJob b) = PyBool false <-> job_id a <> job_id b)
  /\ Job_hash hash a = hash (job_id a)
  /\ (job_id a = job_id b -> Job_hash hash a = Job_hash hash b)
  /\ (forall other_eq : Job -> pyobj, Job_eq a (NotAJob other_eq) = other_eq a)
  /\ (forall (now1 now2 t1 t2 : datetime) (cpu1 cpu2 mem1 mem2 : Z)
        (params1 params2 : Parameters) (name1 name2 : pyobj) (prio1 prio2 : option Z)
        (id : job_id_arg) (a' b' : Job),
        set_job_id UUID_of_str t1 id (JobImpl_init now1 cpu1 mem1 params1 name1 prio1)
        = Ok a' ->
        set_job_id UUID_of_str t2 id (JobImpl_init now2 cpu2 mem2 params2 name2 prio2)
        = Ok b' ->
        Job_eq a' (AJob b') = PyBool true /\ Job_hash hash a' = Job_hash hash b').
Proof.
  assert (Heq : Job_eq a (AJob b) = PyBool true <-> job_id a = job_id b).
  { unfold Job_eq. rewrite <- job_id_eq_eq. split; [now intros [= ->]|now intros ->]. }
  split; [exact Heq|]. split; [|split; [reflexivity|split; [|split]]].
  - unfold Job_eq in *. destruct (job_id_eq (job_id a) (job_id b)).
    + split; [discriminate|]. intros H. elim H. now apply Heq.
    + split; [|reflexivity]. intros _ H. apply Heq in H. discriminate H.
  - unfold Job_hash. now intros ->.
  - reflexivity.
  - intros now1 now2 t1 t2 cpu1 cpu2 mem1 mem2 params1 params2 name1 name2 prio1 prio2
      id a' b' Ha Hb.
    assert (Hid : job_id a' = job_id b').
    { unfold set_job_id in Ha, Hb.
      destruct id as [s|u]; [destruct (UUID_of_str s) as [u|]; [|discriminate Ha]|];
        cbn [bind] in Ha, Hb; injection Ha as <-; injection Hb as <-; reflexivity. }
    split.
    + unfold Job_eq. apply job_id_eq_eq in Hid. now rewrite Hid.
    + unfold Job_hash. now rewrite Hid.
Qed.

Lemma UUID_bytes_length (u : UUID) : List.length (UUID_bytes u) = 16%nat.
Proof. unfold UUID_bytes, to_bytes_big. now rewrite length_map, length_seq. Qed.

(** C10: the getter of [job_id] gives [None] as long as the job holds no
    identifier, so on every new [JobImpl] and [RequestedJob]; once the
    setter has succeeded it gives the 16 bytes of the stored [UUID], a
    [bytes] and not a [str], so what is read back is never the string that
    was assigned. *)
Theorem job_id_getter (now : datetime) (self : Job) :
  (job_uuid self = None -> job_id self = PyNone)
  /\ (forall (cpu mem : Z) (params : Parameters) (name : pyobj) (prio : option Z),
        job_id (JobImpl_init now cpu mem params name prio : Job) = PyNone)
  /\ (forall request : SchedulerRequestMessage,
        job_id (as_JobImpl (RequestedJob_init now request) : Job) = PyNone)
  /\ (forall (id : job_id_arg) (self' : Job),
        set_job_id UUID_of_str now id self = Ok self' ->
        exists u : UUID,
          job_uuid self' = Some u
          /\ (id = IdUUID u \/ exists s, id = IdStr s /\ UUID_of_str s = Some u)
          /\ job_id self' = PyBytes (UUID_bytes u)
          /\ List.length (UUID_bytes u) = 16%nat)
  /\ (forall (s : string) (self' : Job),
        set_job_id UUID_of_str now (IdStr s) self = Ok self' ->
        job_id self' <> PyStr s /\ job_id self' <> PyNone).
Proof.
  split; [|split; [|split; [|split]]].
  - intros H. unfold job_id. now rewrite H.
  - reflexivity.
  - reflexivity.
  - intros id self' H. unfold set_job_id in H.
    destruct id as [s|u].
    + destruct (UUID_of_str s) as [u|] eqn:E; [|discriminate H].
      cbn [bind] in H. injection H as <-. exists u.
      split; [reflexivity|]. split; [right; now exists s|].
      split; [reflexivity|apply UUID_bytes_length].
    + cbn [bind] in H. injection H as <-. exists u.
      split; [reflexivity|]. split; [now left|].
      split; [reflexivity|apply UUID_bytes_length].
  - intros s self' H. unfold set_job_id in H.
    destruct (UUID_of_str s) as [u|]; [|discriminate H].
    cbn [bind] in H. injection H as <-. split; discriminate.
Qed.

(** Every mutator that returns has put the time of the call in
    [last_updated], but [add_allocation] on a job that holds a list. *)
Lemma mutate_last_updated (now : datetime) (m : mutation) (self self' : Job) :
  mutate UUID_of_str now m self = Ok self' ->
  (forall a, m = AddAllocation a -> _allocations self = None) ->
  last_updated self' = now.
Proof.
  intros H Hadd.
  destruct m as [p|l|[s|u]|k|st|ph|sp|a]; cbn [mutate] in H;
    try (injection H as <-; reflexivity).
  - unfold set_job_id in H. destruct (UUID_of_str s); [|discriminate H].
    cbn [bind] in H. injection H as <-. reflexivity.
  - rewrite (add_allocation_first now a self (Hadd a eq_refl)) in H.
    injection H as <-. reflexivity.
Qed.

(** [add_allocation] on a job that holds a list leaves [last_updated] as it
    was. *)
Lemma add_allocation_existing_last_updated (now : datetime) (a : ResourceAllocation)
    (self self' : Job) (l : list ResourceAllocation) :
  _allocations self = Some l ->
  add_allocation now a self = Ok self' ->
  last_updated self' = last_updated self /\ allocations self' = Some (l ++ [a]).
Proof.
  intros Hl H. rewrite (add_allocation_existing now a self l Hl) in H.
  injection H as <-. split; reflexivity.
Qed.

(** The allocations accumulate in the order of the calls: on a job that
    holds no list a first [add_allocation] leaves a list of one grant and a
    second one a list of two. *)
Lemma add_allocation_twice (now1 now2 : datetime) (a b : ResourceAllocation)
    (self : Job) :
  _allocations self = None ->
  exists j1 j2 : Job,
    add_allocation now1 a self = Ok j1
    /\ allocations j1 = Some [a]
    /\ add_allocation now2 b j1 = Ok j2
    /\ allocations j2 = Some [a; b].
Proof.
  intros H.
  exists (with_allocations (Some [a]) (set_allocations now1 [] self)).
  eexists. split; [now apply add_allocation_first|].
  split; [reflexivity|]. split; [now apply add_allocation_existing|reflexivity].
Qed.

End JobProperties.

(** ** The model at work *)

(** C5, at the input where the code departs from it: a first
    [add_allocation], at time 200, creates the list through the setter and
    [last_updated] becomes 200; a second one, at time 300, appends to the
    list and [last_updated] is still 200. *)
Theorem add_allocation_second_call_keeps_last_updated :
  (j1 <- add_allocation 200 7%nat sample_job ;;
   j2 <- add_allocation 300 8%nat j1 ;;
   Ok (last_updated j1, allocations j2, last_updated j2))
  = Ok (200, Some [7%nat; 8%nat], 200).
Proof. reflexivity. Qed.

(** A request for 4 CPUs and 1024 of memory under ROUND_ROBIN gives a job in
    status CREATED with that paradigm, no allocations and no identifier. *)
Example RequestedJob_end_to_end :
  let job : @JobImpl nat unit unit :=
    as_JobImpl (RequestedJob_init 100 (mkRequest 4 1024 tt (PyStr "ROUND_ROBIN"))) in
  allocation_paradigm job = Some JobAllocationParadigm.ROUND_ROBIN
  /\ status job = JobStatus.CREATED
  /\ allocations job = None
  /\ cpu_count job = 4
  /\ memory_size job = 1024
  /\ allocation_priority job = 0
  /\ job_id job = PyNone
  /\ last_updated job = 100.
Proof. repeat split. Qed.

(** Assigning the canonical string of an identifier and reading [job_id] back
    gives the 16 bytes of the identifier. *)
Example job_id_round_trip :
  (j <- set_job_id UUID_of_hex 200 (IdStr sample_id) sample_job ;; Ok (job_id j))
  = Ok (PyBytes [x12; x34; x56; x78; x12; x34; x56; x78;
                 x12; x34; x56; x78; x12; x34; x56; x78]).
Proof. vm_compute. reflexivity. Qed.

Example job_id_malformed :
  set_job_id UUID_of_hex 200 (IdStr malformed_id) sample_job = Raise ValueError.
Proof. vm_compute. reflexivity. Qed.

(** Two jobs made from different resources and given the same identifier
    are equal and have the same hash. *)
Lemma Job_eq_same_id_witness :
  set_job_id UUID_of_hex 200 (IdStr sample_id) sample_job = Ok sample_job_with_id
  /\ set_job_id UUID_of_hex 300 (IdStr sample_id) other_sample_job
     = Ok other_sample_job_with_id
  /\ cpu_count sample_job_with_id <> cpu_count other_sample_job_with_id
  /\ Job_eq sample_job_with_id (AJob other_sample_job_with_id) = PyBool true
  /\ Job_hash sample_hash sample_job_with_id
     = Job_hash sample_hash other_sample_job_with_id.
Proof.
  assert (Ha : set_job_id UUID_of_hex 200 (IdStr sample_id) sample_job
               = Ok sample_job_with_id) by (vm_compute; reflexivity).
  assert (Hb : set_job_id UUID_of_hex 300 (IdStr sample_id) other_sample_job
               = Ok other_sample_job_with_id) by (vm_compute; reflexivity).
  split; [exact Ha|]. split; [exact Hb|]. split; [discriminate|].
  exact (proj2 (proj2 (proj2 (proj2 (proj2
           (Job_eq_by_job_id UUID_of_hex sample_hash sample_job_with_id
              other_sample_job_with_id)))))
           100 150 200 300 4 1 1024 16 tt tt (PyStr "ROUND_ROBIN") (PyStr "SINGLE_NODE")
           None (Some 5) (IdStr sample_id) _ _ Ha Hb).
Defined.

(** A mutator at work: the status is set at time 250. *)
Lemma mutate_last_updated_witness :
  mutate UUID_of_hex 250 (SetStatus JobStatus.MODEL_EXEC_RUNNING) sample_job
  = Ok (set_status 250 JobStatus.MODEL_EXEC_RUNNING sample_job)
  /\ last_updated (set_status 250 JobStatus.MODEL_EXEC_RUNNING sample_job) = 250.
Proof.
  split; [reflexivity|].
  apply (mutate_last_updated UUID_of_hex 250 (SetStatus JobStatus.MODEL_EXEC_RUNNING)
           sample_job _ eq_refl).
  intros a H; discriminate H.
Defined.

(** A job whose list was set at time 200 gets a grant at time 300. *)
Lemma add_allocation_existing_last_updated_witness :
  _allocations (set_allocations 200 [7%nat] sample_job) = Some [7%nat]
  /\ last_updated
       (with_allocations (Some [7%nat; 8%nat]) (set_allocations 200 [7%nat] sample_job))
     = 200
  /\ allocations
       (with_allocations (Some [7%nat; 8%nat]) (set_allocations 200 [7%nat] sample_job))
     = Some [7%nat; 8%nat].
Proof.
  split; [reflexivity|].
  exact (add_allocation_existing_last_updated 300 8%nat
           (set_allocations 200 [7%nat] sample_job) _ [7%nat] eq_refl eq_refl).
Defined.

Lemma add_allocation_twice_witness :
  _allocations sample_job = None
  /\ exists j1 j2 : @JobImpl nat unit unit,
       add_allocation 200 7%nat sample_job = Ok j1
       /\ allocations j1 = Some [7%nat]
       /\ add_allocation 300 8%nat j1 = Ok j2
       /\ allocations j2 = Some [7%nat; 8%nat].
Proof.
  split; [reflexivity|].
  exact (add_allocation_twice 200 300 7%nat 8%nat sample_job eq_refl).
Defined.

(** * Further properties of the code *)

(** ** The flags and the identifiers of the statuses *)

(** A status in error is interrupted and releases its allocations; the
    statuses that release are the failed ones, OUTPUT_EXEC_COMPLETED and
    CLOSED; and a status that is not active releases, unless it is UNKNOWN. *)
Theorem JobStatus_flags (s : JobStatus.t) :
  (JobStatus.is_error s = true <-> JobStatus.job_exec_step s = JobExecStep.FAILED)
  /\ (JobStatus.is_interrupted s = true
      <-> (JobStatus.job_exec_step s = JobExecStep.STOPPED
           \/ JobStatus.job_exec_step s = JobExecStep.FAILED))
  /\ (JobStatus.is_error s = true ->
      JobStatus.is_interrupted s = true /\ JobStatus.should_release_allocations s = true)
  /\ (JobStatus.should_release_allocations s = true
      <-> (JobStatus.is_error s = true
           \/ s = JobStatus.OUTPUT_EXEC_COMPLETED \/ s = JobStatus.CLOSED))
  /\ (JobStatus.is_active s = false ->
      s = JobStatus.UNKNOWN \/ JobStatus.should_release_allocations s = true).
Proof.
  repeat match goal with |- _ /\ _ => split end.
  all: destruct s; cbv; intuition (try discriminate; try congruence).
Qed.

(** The identifiers tell the members apart in each of the three enums, and
    the negative ones mark failure and the unknown: a step of negative uid is
    FAILED, a phase of negative uid is UNKNOWN, a status of negative uid is
    in error or UNKNOWN. *)
Theorem uid_conventions :
  (forall a b : JobExecStep.t, JobExecStep.uid a = JobExecStep.uid b -> a = b)
  /\ (forall a b : JobExecPhase.t, JobExecPhase.uid a = JobExecPhase.uid b -> a = b)
  /\ (forall a b : JobStatus.t, JobStatus.uid a = JobStatus.uid b -> a = b)
  /\ (forall a : JobExecStep.t, JobExecStep.uid a < 0 <-> JobExecStep.is_error a = true)
  /\ (forall a : JobExecPhase.t, JobExecPhase.uid a < 0 <-> a = JobExecPhase.UNKNOWN)
  /\ (forall a : JobStatus.t,
        JobStatus.uid a < 0 <-> (JobStatus.is_error a = true \/ a = JobStatus.UNKNOWN))
  /\ (forall (a b : JobStatus.t) (n : Z),
        JobStatus_eq a (PyInt n) = true -> JobStatus_eq b (PyInt n) = true -> a = b).
Proof.
  repeat match goal with |- _ /\ _ => split end.
  - intros a b H; destruct a, b; try reflexivity; discriminate H.
  - intros a b H; destruct a, b; try reflexivity; discriminate H.
  - exact JobStatus_uid_inj.
  - intros a; destruct a; cbv; intuition (try discriminate; try congruence).
  - intros a; destruct a; cbv; intuition (try discriminate; try congruence).
  - intros a; destruct a; cbv; intuition (try discriminate; try congruence).
  - intros a b n Ha Hb. simpl in Ha, Hb.
    apply Z.eqb_eq in Ha, Hb. apply JobStatus_uid_inj. congruence.
Qed.

(** ** Statuses by name *)

(** The test of the empty string in [get_for_name] changes nothing: the
    result is read off the formatted name. *)
Lemma get_for_name_formatted (x : string) :
  get_for_name (PyStr x)
  = match first_status_named JobStatus.members (PyStr.strip (PyStr.lower x)) with
    | Some value => value
    | None => JobStatus.UNKNOWN
    end.
Proof.
  unfold get_for_name. destruct x as [|c x]; [reflexivity|].
  replace (PyStr.len (String c x) =? 0) with false
    by (symmetry; apply Z.eqb_neq; unfold PyStr.len; simpl String.length; lia).
  reflexivity.
Qed.

(** [get_for_name] returns a status other than UNKNOWN exactly on the strings
    that are its name once lower-cased and trimmed; it returns UNKNOWN on
    what is not a string, on the empty string, on the name of UNKNOWN and on
    the strings that name no status. *)
Theorem get_for_name_characterized :
  (forall (x : string) (s : JobStatus.t),
     s <> JobStatus.UNKNOWN ->
     (get_for_name (PyStr x) = s
      <-> PyStr.strip (PyStr.lower x) = PyStr.lower (JobStatus.name s)))
  /\ (forall x : string,
        get_for_name (PyStr x) = JobStatus.UNKNOWN
        <-> (PyStr.strip (PyStr.lower x) = PyStr.lower (JobStatus.name JobStatus.UNKNOWN)
             \/ forall t, PyStr.strip (PyStr.lower x) <> PyStr.lower (JobStatus.name t)))
  /\ (forall v : pyobj, (forall x, v <> PyStr x) -> get_for_name v = JobStatus.UNKNOWN)
  /\ get_for_name (PyStr "") = JobStatus.UNKNOWN.
Proof.
  assert (Hsound : forall x s, get_for_name (PyStr x) = s ->
            PyStr.strip (PyStr.lower x) = PyStr.lower (JobStatus.name s)
            \/ (s = JobStatus.UNKNOWN
                /\ forall t, PyStr.strip (PyStr.lower x) <> PyStr.lower (JobStatus.name t))).
  { intros x s. rewrite get_for_name_formatted.
    destruct (first_status_named JobStatus.members (PyStr.strip (PyStr.lower x)))
      as [v|] eqn:E.
    - intros <-. left. apply first_status_named_sound in E.
      now rewrite JobStatus_name_formatted in E.
    - intros <-. right. split; [reflexivity|]. intros t Ht.
      pose proof (get_for_name_named x t Ht) as Hn.
      rewrite get_for_name_formatted, E in Hn. subst t.
      rewrite Ht in E. vm_compute in E. discriminate E. }
  repeat match goal with |- _ /\ _ => split end.
  - intros x s Hs; split; [|apply get_for_name_named].
    intros H. destruct (Hsound x s H) as [H'|[H' _]]; [exact H'|contradiction].
  - intros x; split.
    + intros H. destruct (Hsound x _ H) as [H'|[_ H']]; [now left|now right].
    + intros [H|H]; [now apply get_for_name_named|now apply get_for_name_unrecognized].
  - intros v Hv. destruct v; try reflexivity. elim (Hv s eq_refl).
  - reflexivity.
Qed.

(** ** Blanks and case in names *)

Lemma isspace_lower_char (c : ascii) :
  PyStr.isspace c = true -> PyStr.lower_char c = c.
Proof.
  destruct c as [[] [] [] [] [] [] [] []]; intros H; try reflexivity;
    vm_compute in H; discriminate H.
Qed.

Lemma lower_char_idempotent (c : ascii) :
  PyStr.lower_char (PyStr.lower_char c) = PyStr.lower_char c.
Proof. destruct c as [[] [] [] [] [] [] [] []]; reflexivity. Qed.

Lemma lower_idempotent (x : string) : PyStr.lower (PyStr.lower x) = PyStr.lower x.
Proof.
  induction x as [|c x IH]; [reflexivity|].
  cbn [PyStr.lower]. now rewrite lower_char_idempotent, IH.
Qed.

Lemma lower_app (x y : string) :
  PyStr.lower (x ++ y) = (PyStr.lower x ++ PyStr.lower y)%string.
Proof.
  induction x as [|c x IH]; [reflexivity|].
  cbn [PyStr.lower String.append]. now rewrite IH.
Qed.

Lemma lower_blank (ws : string) : blank ws = true -> PyStr.lower ws = ws.
Proof.
  induction ws as [|c ws IH]; [reflexivity|].
  cbn [blank PyStr.lower]. intros H. apply andb_true_iff in H as [Hc Hws].
  now rewrite (isspace_lower_char c Hc), (IH Hws).
Qed.

Lemma lstrip_blank (ws : string) : blank ws = true -> PyStr.lstrip ws = EmptyString.
Proof.
  induction ws as [|c ws IH]; [reflexivity|].
  cbn [blank PyStr.lstrip]. intros H. apply andb_true_iff in H as [Hc Hws].
  rewrite Hc. now apply IH.
Qed.

Lemma rstrip_blank (ws : string) : blank ws = true -> PyStr.rstrip ws = EmptyString.
Proof.
  induction ws as [|c ws IH]; [reflexivity|].
  cbn [blank PyStr.rstrip]. intros H. apply andb_true_iff in H as [Hc Hws].
  now rewrite (IH Hws), Hc.
Qed.

Lemma lstrip_blank_app (ws s : string) :
  blank ws = true -> PyStr.lstrip (ws ++ s) = PyStr.lstrip s.
Proof.
  induction ws as [|c ws IH]; [reflexivity|].
  cbn [blank PyStr.lstrip String.append]. intros H.
  apply andb_true_iff in H as [Hc Hws]. rewrite Hc. now apply IH.
Qed.

Lemma rstrip_app_blank (s ws : string) :
  blank ws = true -> PyStr.rstrip (s ++ ws) = PyStr.rstrip s.
Proof.
  intros H. induction s as [|c s IH]; [now apply rstrip_blank|].
  cbn [PyStr.rstrip String.append]. now rewrite IH.
Qed.

(** Blanks around a string do not change what [strip] makes of it. *)
Lemma strip_padded (pre s post : string) :
  blank pre = true -> blank post = true ->
  PyStr.strip (pre ++ s ++ post) = PyStr.strip s.
Proof.
  intros Hpre Hpost. unfold PyStr.strip. rewrite (lstrip_blank_app pre _ Hpre).
  induction s as [|c s IH].
  - cbn [String.append]. now rewrite (lstrip_blank post Hpost).
  - cbn [String.append PyStr.lstrip]. destruct (PyStr.isspace c); [exact IH|].
    exact (rstrip_app_blank (String c s) post Hpost).
Qed.

(** Blanks around a name change neither the status nor the paradigm it
    selects. *)
Theorem names_ignore_padding (pre x post : string) :
  blank pre = true -> blank post = true ->
  get_for_name (PyStr (pre ++ x ++ post)) = get_for_name (PyStr x)
  /\ get_from_name (PyStr (pre ++ x ++ post)) = get_from_name (PyStr x).
Proof.
  intros Hpre Hpost. split.
  - rewrite !get_for_name_formatted, !lower_app.
    rewrite (lower_blank pre Hpre), (lower_blank post Hpost).
    now rewrite (strip_padded pre (PyStr.lower x) post Hpre Hpost).
  - unfold get_from_name. now rewrite (strip_padded pre x post Hpre Hpost).
Qed.

(** The case of the letters of a name does not change the status it
    selects: two strings that are equal once lower-cased select the same
    status, and so do a string and its lower-cased form. It does change the
    paradigm: a lower-cased name selects none. *)
Theorem get_for_name_ignores_case :
  (forall x y : string,
     PyStr.lower x = PyStr.lower y -> get_for_name (PyStr x) = get_for_name (PyStr y))
  /\ (forall x : string, get_for_name (PyStr (PyStr.lower x)) = get_for_name (PyStr x))
  /\ (forall p : JobAllocationParadigm.t,
        get_from_name (PyStr (PyStr.lower (JobAllocationParadigm.name p))) = None).
Proof.
  split; [|split].
  - intros x y H. now rewrite !get_for_name_formatted, H.
  - intros x. now rewrite !get_for_name_formatted, lower_idempotent.
  - intros p; destruct p; reflexivity.
Qed.

(** Blanks around the name of a status in small letters. *)
Lemma names_ignore_padding_witness :
  blank "  " = true /\ blank " " = true
  /\ get_for_name (PyStr ("  " ++ "closed" ++ " ")) = get_for_name (PyStr "closed")
  /\ get_from_name (PyStr ("  " ++ "closed" ++ " ")) = get_from_name (PyStr "closed").
Proof.
  split; [reflexivity|]. split; [reflexivity|].
  exact (names_ignore_padding "  " "closed" " " eq_refl eq_refl).
Defined.

(** ** The status of a job through its phase and its step *)

Section JobTransitions.

Context {ResourceAllocation RsaKeyPair Parameters : Type}.

Local Abbreviation Job := (@JobImpl ResourceAllocation RsaKeyPair Parameters).

(** Assigning a phase and reading the phase back gives that phase, whatever
    the phase and the job; the step is then the default start step of the
    phase. Every phase is paired with its default start step in the table. *)
Theorem set_status_phase_round_trip (now : datetime) (phase : JobExecPhase.t)
    (self : Job) :
  status_phase (set_status_phase now phase self) = phase
  /\ status_step (set_status_phase now phase self) = JobExecPhase.default_start_step phase
  /\ (status (set_status_phase now phase self) = JobStatus.UNKNOWN
      <-> phase = JobExecPhase.UNKNOWN).
Proof.
  destruct phase; cbv; intuition (try discriminate; try congruence).
Qed.

(** Assigning a step keeps the phase and takes the step when the table pairs
    them; otherwise the job falls to UNKNOWN and loses its phase. MODEL_EXEC
    and OUTPUT_EXEC take every step but DEFAULT, INIT takes DEFAULT only,
    CLOSED takes COMPLETED and FAILED, and a job in UNKNOWN stays there
    whatever the step. *)
Theorem set_status_step_cases (now : datetime) (step : JobExecStep.t) (self : Job) :
  ((status_phase (set_status_step now step self) = status_phase self
    /\ status_step (set_status_step now step self) = step)
   \/ (status (set_status_step now step self) = JobStatus.UNKNOWN
       /\ forall st : JobStatus.t,
            ~ (JobStatus.job_exec_phase st = status_phase self
               /\ JobStatus.job_exec_step st = step)))
  /\ (status self = JobStatus.UNKNOWN ->
      status (set_status_step now step self) = JobStatus.UNKNOWN)
  /\ (status_phase self = JobExecPhase.MODEL_EXEC
      \/ status_phase self = JobExecPhase.OUTPUT_EXEC ->
      (status (set_status_step now step self) = JobStatus.UNKNOWN
       <-> step = JobExecStep.DEFAULT))
  /\ (status_phase self = JobExecPhase.INIT ->
      (status (set_status_step now step self) = JobStatus.UNKNOWN
       <-> step <> JobExecStep.DEFAULT))
  /\ (status_phase self = JobExecPhase.CLOSED ->
      (status (set_status_step now step self) = JobStatus.UNKNOWN
       <-> (step <> JobExecStep.COMPLETED /\ step <> JobExecStep.FAILED))).
Proof.
  assert (Hst : status (set_status_step now step self)
                = JobStatus.get_for_phase_and_step (status_phase self) step)
    by reflexivity.
  rewrite !Hst. unfold status_phase, status_step. rewrite !Hst.
  unfold status_phase, status. generalize (_status self) as s0. clear Hst self now.
  intros s0. split; [|split; [|split; [|split]]].
  - destruct s0, step;
      first [ left; split; reflexivity
            | right; split; [reflexivity|];
              intros st [Hp Hs]; destruct st; discriminate ].
  - intros ->. destruct step; reflexivity.
  - destruct s0, step; cbv; intuition (try discriminate; try congruence).
  - destruct s0, step; cbv; intuition (try discriminate; try congruence).
  - destruct s0, step; cbv; intuition (try discriminate; try congruence).
Qed.

End JobTransitions.

(** ** What the mutators keep *)

Section JobInvariants.

Context {ResourceAllocation RsaKeyPair Parameters : Type}.
Variable UUID_of_str : string -> option UUID.
Variable hash : pyobj -> Z.

Local Abbreviation Job := (@JobImpl ResourceAllocation RsaKeyPair Parameters).

(** The job a call of a mutator returns, by cases on the call. *)
Lemma mutate_inv (now : datetime) (m : mutation) (self self' : Job) :
  mutate UUID_of_str now m self = Ok self' ->
  match m with
  | SetAllocationPriority p => self' = set_allocation_priority now p self
  | SetAllocations l => self' = set_allocations now l self
  | SetJobId (IdStr s) =>
      exists u, UUID_of_str s = Some u
                /\ self' = _reset_last_updated now (with_job_uuid (Some u) self)
  | SetJobId (IdUUID u) => self' = _reset_last_updated now (with_job_uuid (Some u) self)
  | SetRsaKeyPair k => self' = set_rsa_key_pair now k self
  | SetStatus st => self' = set_status now st self
  | SetStatusPhase ph => self' = set_status_phase now ph self
  | SetStatusStep sp => self' = set_status_step now sp self
  | AddAllocation a =>
      match _allocations self with
      | Some l => self' = with_allocations (Some (l ++ [a])) self
      | None => self' = with_allocations (Some [a]) (set_allocations now [] self)
      end
  end.
Proof.
  intros H. destruct m as [p|l|[s|u]|k|st|ph|sp|a]; cbn [mutate] in H;
    try (injection H as <-; reflexivity).
  - unfold set_job_id in H. destruct (UUID_of_str s) as [u|]; [|discriminate H].
    cbn [bind] in H. injection H as <-. now exists u.
  - destruct (_allocations self) as [l|] eqn:E.
    + rewrite (add_allocation_existing now a self l E) in H. now injection H as <-.
    + rewrite (add_allocation_first now a self E) in H. now injection H as <-.
Qed.

(** Case analysis on a call that returned: [H] becomes the equation of the
    job returned, in each of the nine cases. *)
Ltac by_mutation H m self :=
  apply mutate_inv in H;
  destruct m as [?p|?l|[?s|?u]|?k|?st|?ph|?sp|?a];
  [ | | destruct H as [?u [_ H]] | | | | | | destruct (_allocations self) as [?l|] eqn:?E ].

(** No mutator touches the requirements of a job (CPUs, memory, parameters,
    paradigm), and each of the other attributes changes only under the
    mutators that are about it: the identifier under the setter of [job_id],
    the priority under its setter, the key pair under its setter, the status
    under the setters of the status, its phase and its step. *)
Theorem mutate_frame (now : datetime) (m : mutation) (self self' : Job) :
  mutate UUID_of_str now m self = Ok self' ->
  cpu_count self' = cpu_count self
  /\ memory_size self' = memory_size self
  /\ parameters self' = parameters self
  /\ allocation_paradigm self' = allocation_paradigm self
  /\ ((forall id, m <> SetJobId id) -> job_uuid self' = job_uuid self)
  /\ ((forall p, m <> SetAllocationPriority p) ->
      allocation_priority self' = allocation_priority self)
  /\ ((forall k, m <> SetRsaKeyPair k) -> rsa_key_pair self' = rsa_key_pair self)
  /\ ((forall st, m <> SetStatus st) -> (forall ph, m <> SetStatusPhase ph) ->
      (forall sp, m <> SetStatusStep sp) -> status self' = status self).
Proof.
  intros H. by_mutation H m self;
    subst self'; repeat split; try reflexivity; intros;
    match goal with
    | Hne : forall x, _ <> _ |- _ => now elim (Hne _ eq_refl)
    end.
Qed.

(** A mutator other than the setter of [job_id] leaves the job equal to what
    it was, with the same hash: a job stays where a set or a dictionary put
    it. *)
Theorem mutate_keeps_identity (now : datetime) (m : mutation) (self self' : Job) :
  (forall id, m <> SetJobId id) ->
  mutate UUID_of_str now m self = Ok self' ->
  job_id self' = job_id self
  /\ Job_eq self' (AJob self) = PyBool true
  /\ Job_hash hash self' = Job_hash hash self.
Proof.
  intros Hm H.
  assert (Hid : job_id self' = job_id self).
  { by_mutation H m self; subst self'; try reflexivity; now elim (Hm _ eq_refl). }
  split; [exact Hid|]. split.
  - unfold Job_eq. apply job_id_eq_eq in Hid. now rewrite Hid.
  - unfold Job_hash. now rewrite Hid.
Qed.

(** The mutators other than the setter of [allocations] never remove a
    grant: the list stays as it is or gets one grant more at its end, and a
    job without a list gets none or a list of one grant. *)
Theorem allocations_append_only (now : datetime) (m : mutation) (self self' : Job) :
  (forall l, m <> SetAllocations l) ->
  mutate UUID_of_str now m self = Ok self' ->
  match allocations self with
  | Some l =>
      allocations self' = Some l
      \/ exists a, m = AddAllocation a /\ allocations self' = Some (l ++ [a])
  | None =>
      allocations self' = None
      \/ exists a, m = AddAllocation a /\ allocations self' = Some [a]
  end.
Proof.
  intros Hm H. unfold allocations.
  by_mutation H m self; subst self';
    try (now elim (Hm _ eq_refl));
    try (destruct (_allocations self) eqn:E; cbn; rewrite ?E; now left);
    right; eexists; split; reflexivity.
Qed.

(** What a call does to [last_updated]: the time of the call, or nothing. *)
Lemma mutate_last_updated_cases (now : datetime) (m : mutation) (self self' : Job) :
  mutate UUID_of_str now m self = Ok self' ->
  last_updated self' = now \/ last_updated self' = last_updated self.
Proof.
  intros H. by_mutation H m self; subst self'; (now left) || (now right).
Qed.

Lemma clock_from_earlier (t t' : datetime)
    (calls : list (datetime * @mutation ResourceAllocation RsaKeyPair)) :
  t' <= t -> clock_from t calls -> clock_from t' calls.
Proof.
  destruct calls as [|[now m] rest]; [trivial|].
  cbn [clock_from]. intros Ht [H1 H2]. split; [lia|exact H2].
Qed.

Lemma last_cons_default (x : datetime) (xs : list datetime) (d d' : datetime) :
  last (x :: xs) d = last (x :: xs) d'.
Proof.
  revert x; induction xs as [|y ys IH]; intros x; [reflexivity|].
  change (last (y :: ys) d = last (y :: ys) d'). apply IH.
Qed.

(** Over any run of calls made while the clock does not go back,
    [last_updated] never decreases and is at most the time of the last call;
    and the requirements of the job are those it started with. *)
Theorem run_last_updated_monotone
    (calls : list (datetime * @mutation ResourceAllocation RsaKeyPair))
    (self self' : Job) :
  clock_from (last_updated self) calls ->
  run UUID_of_str calls self = Ok self' ->
  last_updated self <= last_updated self'
  /\ last_updated self' <= last (map fst calls) (last_updated self)
  /\ cpu_count self' = cpu_count self
  /\ memory_size self' = memory_size self
  /\ parameters self' = parameters self
  /\ allocation_paradigm self' = allocation_paradigm self.
Proof.
  revert self. induction calls as [|[now m] rest IH]; intros self Hclock Hrun.
  - cbn [run] in Hrun. injection Hrun as <-. cbn. repeat split; lia.
  - cbn [run] in Hrun. cbn [clock_from] in Hclock. destruct Hclock as [Hnow Hrest].
    destruct (mutate UUID_of_str now m self) as [self1|e] eqn:E; [|discriminate Hrun].
    cbn [bind] in Hrun.
    pose proof (mutate_last_updated_cases now m self self1 E) as Hlu.
    assert (Hle : last_updated self1 <= now) by (destruct Hlu as [->| ->]; lia).
    assert (Hge : last_updated self <= last_updated self1)
      by (destruct Hlu as [->| ->]; lia).
    destruct (IH self1 (clock_from_earlier now _ rest Hle Hrest) Hrun)
      as (H1 & H2 & H3 & H4 & H5 & H6).
    assert (Hframe : cpu_count self1 = cpu_count self
                     /\ memory_size self1 = memory_size self
                     /\ parameters self1 = parameters self
                     /\ allocation_paradigm self1 = allocation_paradigm self).
    { by_mutation E m self; subst self1; repeat split. }
    destruct Hframe as (F1 & F2 & F3 & F4).
    split; [lia|]. split.
    + destruct rest as [|c rest'].
      * cbn in *. injection Hrun as <-. lia.
      * change (map fst ((now, m) :: c :: rest')) with (now :: map fst (c :: rest')).
        cbn [map] in *.
        change (last_updated self' <= last (fst c :: map fst rest') (last_updated self)).
        rewrite (last_cons_default _ _ (last_updated self) (last_updated self1)).
        exact H2.
    + repeat split; congruence.
Qed.

End JobInvariants.

(** ** Equality of jobs *)

Section JobEquality.

Context {ResourceAllocation RsaKeyPair Parameters : Type}.
Variable hash : pyobj -> Z.

Local Abbreviation Job := (@JobImpl ResourceAllocation RsaKeyPair Parameters).

Lemma Job_eq_true_iff (a b : Job) :
  Job_eq a (AJob b) = PyBool true <-> job_id a = job_id b.
Proof.
  unfold Job_eq. rewrite <- job_id_eq_eq. split; [now intros [= ->]|now intros ->].
Qed.

(** Among jobs [==] is an equivalence: reflexive, symmetric and transitive. *)
Theorem Job_eq_equivalence (a b c : Job) :
  Job_eq a (AJob a) = PyBool true
  /\ Job_eq a (AJob b) = Job_eq b (AJob a)
  /\ (Job_eq a (AJob b) = PyBool true -> Job_eq b (AJob c) = PyBool true ->
      Job_eq a (AJob c) = PyBool true).
Proof.
  split; [now apply Job_eq_true_iff|]. split.
  - unfold Job_eq. f_equal.
    destruct (job_id_eq (job_id a) (job_id b)) eqn:Eab;
      destruct (job_id_eq (job_id b) (job_id a)) eqn:Eba; try reflexivity.
    + apply job_id_eq_eq in Eab. symmetry in Eab. apply job_id_eq_eq in Eab. congruence.
    + apply job_id_eq_eq in Eba. symmetry in Eba. apply job_id_eq_eq in Eba. congruence.
  - rewrite !Job_eq_true_iff. congruence.
Qed.

(** Jobs without an identifier are all equal to each other, with one hash,
    whatever they were made from: so are any two new jobs. A job without an
    identifier is equal to no job that has one. *)
Theorem Job_eq_unassigned (a b : Job) :
  (job_uuid a = None -> job_uuid b = None ->
   Job_eq a (AJob b) = PyBool true /\ Job_hash hash a = Job_hash hash b)
  /\ (job_uuid a = None -> job_uuid b <> None ->
      Job_eq a (AJob b) = PyBool false /\ Job_eq b (AJob a) = PyBool false)
  /\ (forall (now1 now2 : datetime) (cpu1 cpu2 mem1 mem2 : Z) (params1 params2 : Parameters)
        (name1 name2 : pyobj) (prio1 prio2 : option Z),
        Job_eq (JobImpl_init now1 cpu1 mem1 params1 name1 prio1 : Job)
          (AJob (JobImpl_init now2 cpu2 mem2 params2 name2 prio2))
        = PyBool true).
Proof.
  split; [|split].
  - intros Ha Hb. unfold Job_eq, Job_hash, job_id. now rewrite Ha, Hb.
  - intros Ha Hb. unfold Job_eq, job_id. rewrite Ha.
    destruct (job_uuid b); [split; reflexivity|now elim Hb].
  - reflexivity.
Qed.

End JobEquality.

(** ** The bytes of an identifier *)

Lemma to_bytes_big_S (len : nat) (n : Z) :
  to_bytes_big (S len) n
  = byte_of_Z (Z.shiftr n (8 * Z.of_nat len)) :: to_bytes_big len n.
Proof.
  unfold to_bytes_big. cbn [seq map].
  replace (S len - 1 - 0)%nat with len by lia. f_equal.
  rewrite <- seq_shift, map_map. apply map_ext. intros i.
  now replace (S len - 1 - S i)%nat with (len - 1 - i)%nat by lia.
Qed.

Lemma byte_of_Z_value (z : Z) : Z.of_N (Byte.to_N (byte_of_Z z)) = z mod 256.
Proof.
  unfold byte_of_Z.
  assert (Hr : 0 <= z mod 256 < 256) by (apply Z.mod_pos_bound; lia).
  destruct (Byte.of_N (Z.to_N (z mod 256))) as [b|] eqn:E.
  - apply Byte.to_of_N in E. rewrite E. apply Z2N.id. lia.
  - apply Byte.of_N_None_iff in E. lia.
Qed.

Lemma int_from_bytes_big_acc (b : list byte) (acc : Z) :
  fold_left (fun acc x => 256 * acc + Z.of_N (Byte.to_N x)) b acc
  = acc * 256 ^ Z.of_nat (List.length b) + int_from_bytes_big b.
Proof.
  unfold int_from_bytes_big. revert acc. induction b as [|x b IH]; intros acc.
  - cbn. lia.
  - cbn [fold_left List.length]. rewrite IH, (IH (256 * 0 + _)).
    rewrite Nat2Z.inj_succ, Z.pow_succ_r by lia. ring.
Qed.

Lemma to_bytes_big_length (len : nat) (n : Z) : List.length (to_bytes_big len n) = len.
Proof. unfold to_bytes_big. now rewrite length_map, length_seq. Qed.

(** Reading back the bytes of an integer gives the integer modulo
    [256 ^ length]. *)
Lemma int_from_to_bytes_big (len : nat) (n : Z) :
  int_from_bytes_big (to_bytes_big len n) = n mod 256 ^ Z.of_nat len.
Proof.
  induction len as [|len IH].
  - cbn. now rewrite Z.mod_1_r.
  - rewrite to_bytes_big_S. unfold int_from_bytes_big at 1. cbn [fold_left].
    rewrite int_from_bytes_big_acc, to_bytes_big_length, IH, byte_of_Z_value.
    rewrite Z.shiftr_div_pow2 by lia.
    replace (2 ^ (8 * Z.of_nat len)) with (256 ^ Z.of_nat len)
      by (change 256 with (2 ^ 8); rewrite <- Z.pow_mul_r by lia; reflexivity).
    rewrite Nat2Z.inj_succ, Z.pow_succ_r by lia.
    assert (Hp : 0 < 256 ^ Z.of_nat len) by (apply Z.pow_pos_nonneg; lia).
    rewrite (Z.mul_comm 256 (256 ^ Z.of_nat len)).
    rewrite (Z.rem_mul_r n (256 ^ Z.of_nat len) 256) by lia.
    ring.
Qed.

Section JobIdentifiers.

Context {ResourceAllocation RsaKeyPair Parameters : Type}.

Local Abbreviation Job := (@JobImpl ResourceAllocation RsaKeyPair Parameters).

(** The 16 bytes of an identifier determine it: read back as an integer
    they give the integer of the identifier, so that two jobs that hold
    identifiers are equal exactly when they hold the same one. *)
Theorem Job_eq_same_UUID (a b : Job) (u v : UUID) :
  UUID_valid u -> UUID_valid v ->
  job_uuid a = Some u -> job_uuid b = Some v ->
  int_from_bytes_big (UUID_bytes u) = uuid_int u
  /\ (UUID_bytes u = UUID_bytes v <-> u = v)
  /\ (Job_eq a (AJob b) = PyBool true <-> u = v).
Proof.
  intros Hu Hv Ha Hb.
  assert (Hback : forall w, UUID_valid w -> int_from_bytes_big (UUID_bytes w) = uuid_int w).
  { intros w Hw. unfold UUID_bytes. rewrite int_from_to_bytes_big.
    apply Z.mod_small. exact Hw. }
  assert (Hinj : UUID_bytes u = UUID_bytes v <-> u = v).
  { split; [|now intros ->]. intros H.
    apply (f_equal int_from_bytes_big) in H. rewrite !Hback in H by assumption.
    destruct u, v; cbn in H; now subst. }
  split; [now apply Hback|]. split; [exact Hinj|].
  rewrite Job_eq_true_iff. unfold job_id. rewrite Ha, Hb.
  split; intros H.
  - apply Hinj. congruence.
  - now rewrite H.
Qed.

End JobIdentifiers.

(** ** The further properties at work *)

(** The priority of [sample_job] is set at time 250. *)
Lemma mutate_frame_witness :
  mutate UUID_of_hex 250 (SetAllocationPriority 9) sample_job
  = Ok (set_allocation_priority 250 9 sample_job)
  /\ cpu_count (set_allocation_priority 250 9 sample_job) = 4
  /\ allocation_priority (set_allocation_priority 250 9 sample_job) = 9
  /\ status (set_allocation_priority 250 9 sample_job) = JobStatus.CREATED.
Proof.
  pose proof (mutate_frame UUID_of_hex 250 (SetAllocationPriority 9) sample_job
                (set_allocation_priority 250 9 sample_job) eq_refl)
    as (H1 & _ & _ & _ & _ & _ & _ & H8).
  split; [reflexivity|]. split; [exact H1|]. split; [reflexivity|].
  apply H8; intros x H; discriminate H.
Defined.

(** The status of [sample_job_with_id] is set at time 400. *)
Lemma mutate_keeps_identity_witness :
  (forall id, SetStatus JobStatus.MODEL_EXEC_RUNNING
              <> (SetJobId id : @mutation nat unit))
  /\ job_id (set_status 400 JobStatus.MODEL_EXEC_RUNNING sample_job_with_id)
     = job_id sample_job_with_id
  /\ Job_eq (set_status 400 JobStatus.MODEL_EXEC_RUNNING sample_job_with_id)
       (AJob sample_job_with_id) = PyBool true
  /\ Job_hash sample_hash (set_status 400 JobStatus.MODEL_EXEC_RUNNING sample_job_with_id)
     = Job_hash sample_hash sample_job_with_id.
Proof.
  assert (Hne : forall id, SetStatus JobStatus.MODEL_EXEC_RUNNING
                           <> (SetJobId id : @mutation nat unit))
    by (intros id H; discriminate H).
  split; [exact Hne|].
  exact (mutate_keeps_identity UUID_of_hex sample_hash 400
           (SetStatus JobStatus.MODEL_EXEC_RUNNING) sample_job_with_id _ Hne eq_refl).
Defined.

(** A grant is added to a job that holds the list [[7]]. *)
Lemma allocations_append_only_witness :
  allocations (set_allocations 200 [7%nat] sample_job) = Some [7%nat]
  /\ (allocations
        (with_allocations (Some [7%nat; 8%nat]) (set_allocations 200 [7%nat] sample_job))
      = Some [7%nat]
      \/ exists a,
           AddAllocation 8%nat = (AddAllocation a : @mutation nat unit)
           /\ allocations
                (with_allocations (Some [7%nat; 8%nat])
                   (set_allocations 200 [7%nat] sample_job))
              = Some ([7%nat] ++ [a])).
Proof.
  split; [reflexivity|].
  refine (allocations_append_only UUID_of_hex 300 (AddAllocation 8%nat)
            (set_allocations 200 [7%nat] sample_job) _ _ eq_refl).
  intros l H; discriminate H.
Defined.

(** The run [sample_calls] on [sample_job], made at time 100. *)
Lemma run_last_updated_monotone_witness :
  clock_from (last_updated sample_job) sample_calls
  /\ run UUID_of_hex sample_calls sample_job = Ok sample_run_result
  /\ last_updated sample_job <= last_updated sample_run_result
  /\ last_updated sample_run_result <= 300
  /\ cpu_count sample_run_result = 4.
Proof.
  assert (Hclock : clock_from (last_updated sample_job) sample_calls)
    by (cbn; repeat split; intros H; discriminate H).
  pose proof (run_last_updated_monotone UUID_of_hex sample_calls sample_job
                sample_run_result Hclock eq_refl) as (H1 & H2 & H3 & _).
  split; [exact Hclock|]. split; [reflexivity|]. split; [exact H1|].
  split; [exact H2|exact H3].
Defined.

(** The two sample jobs hold the identifier [sample_uuid]. *)
Lemma Job_eq_same_UUID_witness :
  UUID_valid sample_uuid
  /\ int_from_bytes_big (UUID_bytes sample_uuid) = uuid_int sample_uuid
  /\ (Job_eq sample_job_with_id (AJob other_sample_job_with_id) = PyBool true
      <-> sample_uuid = sample_uuid).
Proof.
  assert (Hv : UUID_valid sample_uuid)
    by (split; [intros H; discriminate H|reflexivity]).
  pose proof (Job_eq_same_UUID sample_job_with_id other_sample_job_with_id
                sample_uuid sample_uuid Hv Hv eq_refl eq_refl) as (H1 & _ & H3).
  split; [exact Hv|]. split; [exact H1|exact H3].
Defined.

(** ** A status against a float, a new job and its paradigm *)

(** A status is equal to a finite float exactly when the value of the float,
    [m * 2^e], is the uid of the status; it is equal to no infinity and to no
    NaN. *)
Theorem JobStatus_eq_float_exact (self : JobStatus.t) :
  (forall m e : Z,
     0 <= e ->
     (JobStatus_eq self (PyFloat (FFinite m e)) = true
      <-> m * 2 ^ e = JobStatus.uid self))
  /\ (forall m e : Z,
        e < 0 ->
        (JobStatus_eq self (PyFloat (FFinite m e)) = true
         <-> m = JobStatus.uid self * 2 ^ (- e)))
  /\ (forall negative : bool, JobStatus_eq self (PyFloat (FInf negative)) = false)
  /\ JobStatus_eq self (PyFloat FNaN) = false.
Proof.
  split; [|split; [|split; reflexivity]].
  - intros m e He. unfold JobStatus_eq, float_is_integer, float_to_int.
    replace (0 <=? e) with true by (symmetry; now apply Z.leb_le).
    rewrite Z.eqb_eq. split; congruence.
  - intros m e He. unfold JobStatus_eq, float_is_integer, float_to_int.
    replace (0 <=? e) with false by (symmetry; apply Z.leb_gt; lia).
    assert (Hd : 0 < 2 ^ (- e)) by (apply Z.pow_pos_nonneg; lia).
    destruct (m mod 2 ^ (- e) =? 0) eqn:Em.
    + apply Z.eqb_eq in Em. apply Z.mod_divide in Em; [|lia].
      destruct Em as [q ->]. rewrite Z.quot_mul by lia. rewrite Z.eqb_eq.
      split; [now intros ->|]. intros H. apply Z.mul_cancel_r in H; [now symmetry|lia].
    + apply Z.eqb_neq in Em. split; [discriminate|]. intros ->.
      elim Em. now apply Z.mod_mul; lia.
Qed.

Section NewJobs.

Context {ResourceAllocation RsaKeyPair Parameters : Type}.

Local Abbreviation Job := (@JobImpl ResourceAllocation RsaKeyPair Parameters).

(** The paradigm of a new job is the one its name selects, blanks trimmed;
    a job made with [None], with a value that is not a string or with a name
    that matches no paradigm has the paradigm [None], and so has the job made
    from a request that carries such a name. *)
Theorem new_job_paradigm (now : datetime) (cpu mem : Z) (params : Parameters)
    (name : pyobj) (prio : option Z) (p : JobAllocationParadigm.t) :
  (allocation_paradigm (JobImpl_init now cpu mem params name prio : Job) = Some p
   <-> exists s, name = PyStr s /\ PyStr.strip s = JobAllocationParadigm.name p)
  /\ (allocation_paradigm (JobImpl_init now cpu mem params name prio : Job) = None
      <-> forall s, name = PyStr s ->
            forall q, PyStr.strip s <> JobAllocationParadigm.name q)
  /\ allocation_paradigm
       (as_JobImpl (RequestedJob_init now (mkRequest cpu mem params name)) : Job)
     = allocation_paradigm (JobImpl_init now cpu mem params name prio : Job).
Proof.
  change (allocation_paradigm (JobImpl_init now cpu mem params name prio : Job))
    with (get_from_name name).
  change (allocation_paradigm
            (as_JobImpl (RequestedJob_init now (mkRequest cpu mem params name)) : Job))
    with (get_from_name name).
  split; [|split; [|reflexivity]].
  - split.
    + destruct name as [| | | | |s| | |]; try discriminate.
      unfold get_from_name, get_default_selection.
      destruct (first_paradigm_named JobAllocationParadigm.members (PyStr.strip s))
        as [q|] eqn:E; [|discriminate].
      intros [= ->]. exists s. split; [reflexivity|].
      symmetry. now apply first_paradigm_named_sound in E.
    + intros (s & -> & Hs). now apply get_from_name_member.
  - split.
    + intros H s -> q Hq. rewrite (get_from_name_member s q Hq) in H. discriminate H.
    + intros H. now rewrite (get_from_name_fallback name H).
Qed.

End NewJobs.
